(** * NIV failure risk engine of [app.js]: embedding and verified properties

    The engine is the JavaScript function [computeRisk] together with its
    leaf helpers [safeNum], [parseFiO2], [clamp], [toMonths], [calcSF] and
    [pctChange].  A snapshot is the object built by [gather()]: every
    numeric field is the text of a form input, every flag is a checkbox
    state.

    JavaScript numbers are IEEE 754 binary64 values; they are embedded as
    the primitive [float] type, whose operations are the same binary64
    operations with round-to-nearest-even.  [null] is [None].  JavaScript
    strings are embedded as [string], holding the UTF-8 encoding of the
    text. *)

From Stdlib Require Import ZArith NArith PArith List String Ascii Bool Lia.
From Stdlib Require Import Floats Permutation Sorted.
Import ListNotations.

Set Warnings "-inexact-float".

Local Open Scope string_scope.
Local Open Scope Z_scope.

(** ** The built-in functions of the language used by the engine *)

Module JS.

(** *** Decimal digits *)

Fixpoint string_of_uint (u : Decimal.uint) : string :=
  match u with
  | Decimal.Nil => EmptyString
  | Decimal.D0 u => String "0" (string_of_uint u)
  | Decimal.D1 u => String "1" (string_of_uint u)
  | Decimal.D2 u => String "2" (string_of_uint u)
  | Decimal.D3 u => String "3" (string_of_uint u)
  | Decimal.D4 u => String "4" (string_of_uint u)
  | Decimal.D5 u => String "5" (string_of_uint u)
  | Decimal.D6 u => String "6" (string_of_uint u)
  | Decimal.D7 u => String "7" (string_of_uint u)
  | Decimal.D8 u => String "8" (string_of_uint u)
  | Decimal.D9 u => String "9" (string_of_uint u)
  end.

(** The decimal digits of a natural number, ["0"] for zero. *)
Definition digits (n : N) : string := string_of_uint (N.to_uint n).

Definition numDigits (n : N) : Z := Z.of_nat (String.length (digits n)).

Fixpoint zeros (n : nat) : string :=
  match n with
  | O => EmptyString
  | S n => String "0" (zeros n)
  end.

(** *** Exactly rounded conversions into binary64 *)

(** The binary64 value nearest to [n / d] (ties to even), signed by
    [neg]; the division of the specification of binary64 rounds the exact
    quotient once, whatever the size of the operands. *)
Definition of_ratio (neg : bool) (n d : positive) : float :=
  SF2Prim (SFdiv prec emax (S754_finite neg n 0) (S754_finite false d 0)).

Definition signed_zero (neg : bool) : float := if neg then neg_zero else zero.
Definition signed_infinity (neg : bool) : float :=
  if neg then neg_infinity else infinity.

(** The binary64 value nearest to [m * 10^e].  A value of at least
    [10^311] is beyond the largest finite binary64 and a value below
    [10^-330] is below half of the smallest one: these two are decided
    from the number of digits, without building the power of ten. *)
Definition of_decimal (neg : bool) (m : N) (e : Z) : float :=
  match m with
  | N0 => signed_zero neg
  | Npos p =>
      let top := e + numDigits m in
      if 311 <? top then signed_infinity neg
      else if top <? -330 then signed_zero neg
      else match e with
           | Z0 => of_ratio neg p 1
           | Zpos k => of_ratio neg (p * Pos.pow 10 k) 1
           | Zneg k => of_ratio neg p (Pos.pow 10 k)
           end
  end.

(** An integer as a number (exact below [2^53]). *)
Definition of_Z (k : Z) : float := of_decimal (k <? 0) (Z.abs_N k) 0.

(** The exact value of a finite non-zero number: sign, numerator and
    denominator. *)
Definition exact (x : float) : option (bool * positive * positive) :=
  match Prim2SF x with
  | S754_finite s m Z0 => Some (s, m, 1%positive)
  | S754_finite s m (Zpos e) => Some (s, (m * Pos.pow 2 e)%positive, 1%positive)
  | S754_finite s m (Zneg e) => Some (s, m, Pos.pow 2 e)
  | _ => None
  end.

(** *** [Number.isFinite], [Math.max], [Math.min], [Math.round] *)

Definition Number_isFinite (x : float) : bool := is_finite x.

(** [Math.max] and [Math.min] of two arguments: NaN if either is NaN, and
    [+0] counts as larger than [-0]. *)
Definition Math_max (a b : float) : float :=
  if is_nan a || is_nan b then nan
  else if (a <? b)%float then b
  else if (b <? a)%float then a
  else if get_sign a then b else a.

Definition Math_min (a b : float) : float :=
  if is_nan a || is_nan b then nan
  else if (a <? b)%float then a
  else if (b <? a)%float then b
  else if get_sign a then a else b.

(** [Math.round]: the nearest integer, ties towards [+∞]; an integral,
    infinite or NaN argument is returned as it is, and a result of zero
    keeps the sign of the argument. *)
Definition Math_round (x : float) : float :=
  match Prim2SF x with
  | S754_finite s m e =>
      if 0 <=? e then x
      else
        let n := Z.shiftr (2 * cond_Zopp s (Zpos m) + Z.pow 2 (- e)) (1 - e) in
        if n =? 0 then signed_zero s else of_Z n
  | _ => x
  end.

(** *** Strings: [trim], [replace], [join] *)

Definition code (c : ascii) : N := N_of_ascii c.

Definition isAsciiSpace (c : ascii) : bool :=
  ((9 <=? code c) && (code c <=? 13) || (code c =? 32))%N.

(** The white space and line terminators of more than one byte:
    U+00A0; U+1680, U+2000 to U+200A, U+2028, U+2029, U+202F, U+205F,
    U+3000 and U+FEFF. *)
Definition isSpace2 (a b : ascii) : bool :=
  ((code a =? 194) && (code b =? 160))%N.

Definition isSpace3 (a b c : ascii) : bool :=
  ((code a =? 225) && (code b =? 154) && (code c =? 128)
   || (code a =? 226) && (code b =? 128)
      && ((128 <=? code c) && (code c <=? 138)
          || (code c =? 168) || (code c =? 169) || (code c =? 175))
   || (code a =? 226) && (code b =? 129) && (code c =? 159)
   || (code a =? 227) && (code b =? 128) && (code c =? 128)
   || (code a =? 239) && (code b =? 187) && (code c =? 191))%N.

(** Leading white space removed; with [fwd = false] the string is read
    backwards, so that the bytes of a character come last to first. *)
Fixpoint dropSpace (fwd : bool) (s : string) : string :=
  match s with
  | String a r =>
      if isAsciiSpace a then dropSpace fwd r
      else
        match r with
        | String b r2 =>
            if (if fwd then isSpace2 a b else isSpace2 b a)
            then dropSpace fwd r2
            else
              match r2 with
              | String c r3 =>
                  if (if fwd then isSpace3 a b c else isSpace3 c b a)
                  then dropSpace fwd r3
                  else s
              | EmptyString => s
              end
        | EmptyString => s
        end
  | EmptyString => s
  end.

Definition reverse (s : string) : string :=
  string_of_list_ascii (rev (list_ascii_of_string s)).

Definition trim (s : string) : string :=
  reverse (dropSpace false (reverse (dropSpace true s))).

(** [s.replace(",", ".")]: the first comma only. *)
Fixpoint replaceComma (s : string) : string :=
  match s with
  | String c r =>
      if (code c =? 44)%N then String "." r else String c (replaceComma r)
  | EmptyString => s
  end.

Definition join (sep : string) (l : list string) : string :=
  String.concat sep l.

(** *** [Number(s)] on a string *)

Definition isDigit (c : ascii) : bool :=
  ((48 <=? code c) && (code c <=? 57))%N.

(** The value of a digit in a radix up to 16, if it is one. *)
Definition digitIn (radix : N) (c : ascii) : option N :=
  let v :=
    if isDigit c then Some (code c - 48)%N
    else if ((97 <=? code c) && (code c <=? 102))%N then Some (code c - 87)%N
    else if ((65 <=? code c) && (code c <=? 70))%N then Some (code c - 55)%N
    else None in
  match v with
  | Some d => if (d <? radix)%N then Some d else None
  | None => None
  end.

(** The longest prefix of digits: value accumulated onto [acc], number of
    digits read added to [cnt], and the rest. *)
Fixpoint takeDigits (radix : N) (s : string) (acc : N) (cnt : Z)
  : N * Z * string :=
  match s with
  | String c r =>
      match digitIn radix c with
      | Some d => takeDigits radix r (radix * acc + d)%N (cnt + 1)
      | None => (acc, cnt, s)
      end
  | EmptyString => (acc, cnt, s)
  end.

Definition isEmpty (s : string) : bool :=
  match s with EmptyString => true | _ => false end.

(** A literal of radix 2, 8 or 16 after its prefix: digits only. *)
Definition nonDecimal (radix : N) (s : string) : float :=
  let '(v, cnt, rest) := takeDigits radix s 0%N 0 in
  if (0 <? cnt) && isEmpty rest then of_decimal false v 0 else nan.

(** The exponent part after its [e]: optional sign and digits, to the
    end of the string. *)
Definition exponentPart (s : string) : option Z :=
  let '(neg, body) :=
    match s with
    | String "-" r => (true, r)
    | String "+" r => (false, r)
    | _ => (false, s)
    end in
  let '(v, cnt, rest) := takeDigits 10 body 0%N 0 in
  if (0 <? cnt) && isEmpty rest
  then Some (if neg then - Z.of_N v else Z.of_N v)
  else None.

(** A decimal literal without its sign. *)
Definition unsignedDecimal (neg : bool) (s : string) : float :=
  if String.eqb s "Infinity" then signed_infinity neg
  else
    let '(ip, n1, r1) := takeDigits 10 s 0%N 0 in
    let '(m, n2, r2) :=
      match r1 with
      | String "." r => takeDigits 10 r ip 0
      | _ => (ip, 0, r1)
      end in
    if n1 + n2 <=? 0 then nan
    else
      match r2 with
      | EmptyString => of_decimal neg m (- n2)
      | String c r =>
          if ((code c =? 101) || (code c =? 69))%N then
            match exponentPart r with
            | Some e => of_decimal neg m (e - n2)
            | None => nan
            end
          else nan
      end.

(** [Number(s)] for a string without surrounding white space: the empty
    string is [0], a numeric literal is its value rounded to nearest,
    anything else is NaN. *)
Definition Number (s : string) : float :=
  match s with
  | EmptyString => zero
  | String "0" (String "x" r) | String "0" (String "X" r) => nonDecimal 16 r
  | String "0" (String "o" r) | String "0" (String "O" r) => nonDecimal 8 r
  | String "0" (String "b" r) | String "0" (String "B" r) => nonDecimal 2 r
  | String "-" r => unsignedDecimal true r
  | String "+" r => unsignedDecimal false r
  | _ => unsignedDecimal false s
  end.

(** *** [String(x)] on a number, and [toFixed] *)

(** The integer [n] with [10^(n-1) <= a/b < 10^n]. *)
Definition decimalExponent (a b : positive) : Z :=
  if (b <=? a)%positive then numDigits (Npos a / Npos b)
  else
    let g := numDigits (Npos b) - numDigits (Npos a) in
    if Zpos b <=? Zpos a * 10 ^ g then 1 - g else - g.

(** [a/b * 10^p] as a fraction. *)
Definition scaled (a b : positive) (p : Z) : Z * Z :=
  match p with
  | Z0 => (Zpos a, Zpos b)
  | Zpos k => (Zpos (a * Pos.pow 10 k), Zpos b)
  | Zneg k => (Zpos a, Zpos (b * Pos.pow 10 k))
  end.

(** The shortest decimal that reads back as [x = a/b > 0]: with [k]
    digits tried in turn, the two [k]-digit neighbours of [x] are read
    back; of two that do, the nearer one is taken, the even one at a tie.
    The result is the digits [s] and the exponent [n], for
    [s * 10^(n-k)]. *)
Fixpoint shortest (fuel : nat) (x : float) (a b : positive) (n0 k : Z)
  : N * Z :=
  match fuel with
  | O => (0%N, n0)
  | S fuel' =>
      let '(u, v) := scaled a b (k - n0) in
      let lo := u / v in
      let r := u mod v in
      let hi := lo + 1 in
      let okLo := (of_decimal false (Z.to_N lo) (n0 - k) =? x)%float in
      let okHi := (of_decimal false (Z.to_N hi) (n0 - k) =? x)%float in
      let pickLo := (Z.to_N lo, n0) in
      let pickHi :=
        if hi =? 10 ^ k then (Z.to_N (10 ^ (k - 1)), n0 + 1)
        else (Z.to_N hi, n0) in
      if okLo && okHi then
        match 2 * r ?= v with
        | Lt => pickLo
        | Gt => pickHi
        | Eq => if Z.even lo then pickLo else pickHi
        end
      else if okLo then pickLo
      else if okHi then pickHi
      else shortest fuel' x a b n0 (k + 1)
  end.

Definition minus (neg : bool) : string :=
  if neg then "-" else EmptyString.

(** [String(x)], the conversion used by template literals. *)
Definition Number_toString (x : float) : string :=
  if is_nan x then "NaN"
  else
    match exact x with
    | None =>
        if is_zero x then "0"
        else if get_sign x then "-Infinity" else "Infinity"
    | Some (neg, a, b) =>
        let '(s, n) := shortest 17 (abs x) a b (decimalExponent a b) 1 in
        let ds := digits s in
        let k := Z.of_nat (String.length ds) in
        let body :=
          if (k <=? n) && (n <=? 21) then ds ++ zeros (Z.to_nat (n - k))
          else if (0 <? n) && (n <=? 21) then
            substring 0 (Z.to_nat n) ds ++ "."
              ++ substring (Z.to_nat n) (Z.to_nat (k - n)) ds
          else if (-6 <? n) && (n <=? 0) then
            "0." ++ zeros (Z.to_nat (- n)) ++ ds
          else
            let mant :=
              if k =? 1 then ds
              else substring 0 1 ds ++ "."
                     ++ substring 1 (Z.to_nat (k - 1)) ds in
            mant ++ "e" ++ (if n - 1 <? 0 then "-" else "+")
                 ++ digits (Z.abs_N (n - 1)) in
        minus neg ++ body
    end.

(** The digits of [q] with a point before the last [fd] of them. *)
Definition fixedDigits (q : N) (fd : nat) : string :=
  let m := digits q in
  match fd with
  | O => m
  | _ =>
      let m' := zeros (fd + 1 - String.length m) ++ m in
      let k := String.length m' in
      substring 0 (k - fd) m' ++ "." ++ substring (k - fd) fd m'
  end.

(** [x.toFixed(fd)]: the integer nearest to [|x| * 10^fd], the larger one
    at a tie, printed with [fd] decimals; [String(x)] when [x] is not
    finite or [|x| >= 10^21]. *)
Definition Number_toFixed (x : float) (fd : nat) : string :=
  if negb (is_finite x) then Number_toString x
  else
    match exact x with
    | None => fixedDigits 0 fd
    | Some (neg, a, b) =>
        if Zpos b * 10 ^ 21 <=? Zpos a then minus neg ++ Number_toString (abs x)
        else
          let q := (2 * Zpos a * 10 ^ Z.of_nat fd + Zpos b) / (2 * Zpos b) in
          minus neg ++ fixedDigits (Z.to_N q) fd
    end.

(** *** [Array.prototype.sort] with a comparison function, and [Boolean] *)

(** [a] is put behind the elements that the comparison orders strictly
    before it ([cmp a b > 0]); a comparison that is zero or NaN leaves
    [a], which came first, in front. *)
Fixpoint insert {A : Type} (cmp : A -> A -> float) (a : A) (l : list A)
  : list A :=
  match l with
  | [] => [a]
  | b :: l' => if (0 <? cmp a b)%float then b :: insert cmp a l' else a :: l
  end.

(** The sort is stable, which fixes its result for a consistent
    comparison: the elements in order, equal ones in their former order. *)
Definition Array_sort {A : Type} (cmp : A -> A -> float) (l : list A)
  : list A :=
  fold_right (insert cmp) [] l.

Definition Array_slice {A : Type} (from to : nat) (l : list A) : list A :=
  firstn (to - from) (skipn from l).

(** [Boolean(b)] on a boolean. *)
Definition Boolean (b : bool) : bool := b.

Definition newline : string := String (ascii_of_nat 10) EmptyString.

End JS.

Import JS.

(** ** The data model *)

(** The values that reach [safeNum]: [null], [undefined], or a string;
    the fields of a snapshot are strings. *)
Inductive value := Null | Undefined | Text (s : string).

Coercion Text : string >-> value.

(** The object returned by [gather()]: the text of every input and the
    state of every checkbox. *)
Record snapshot := {
  ageValue : string;
  ageUnit : string;
  arfType : string;
  diag : string;
  prism : string;
  rfHemodyn : bool;
  rfGcs : bool;
  rfSecretions : bool;
  rfApnea : bool;
  rfPtx : bool;
  cfHypox : bool;
  cfWork : bool;
  cfHypercap : bool;
  cfIntol : bool;
  spo2_0 : string;
  fio2_0 : string;
  epap_0 : string;
  rr_0 : string;
  hr_0 : string;
  ph_0 : string;
  pco2_0 : string;
  spo2_1 : string;
  fio2_1 : string;
  rr_1 : string;
  hr_1 : string;
  ipap_1 : string;
  epap_1 : string;
  ph_1 : string;
  pco2_1 : string
}.

(** An entry [{w, label}] of the array [factors]. *)
Record factor := { w : float; label : string }.

(** The object [out] returned by [computeRisk]. *)
Record assessment := {
  sf0 : option float;
  sf1 : option float;
  drrPct : option float;
  dhrPct : option float;
  dpco2 : option float;
  oxyCtx : option string;
  score : float;
  tier : string;
  badge : string;
  explain : string;
  actions : list string;
  summary : string;
  topFactors : list string;
  brief : string
}.

(** The two locals that the scoring blocks of [computeRisk] update: the
    running [score] and the array [factors]. *)
Record tally := { running : float; factors : list factor }.

(** ** The leaf helpers *)

Local Open Scope float_scope.

(** [safeNum]: [String(x)] of a string is the string itself. *)
Definition safeNum (x : value) : option float :=
  match x with
  | Null | Undefined => None
  | Text x =>
      let s := replaceComma (trim x) in
      if isEmpty s then None
      else
        let n := Number s in
        if Number_isFinite n then Some n else None
  end.

Definition parseFiO2 (x : value) : option float :=
  match safeNum x with
  | None => None
  | Some n => if (1.0 <? n) && (n <=? 100) then Some (n / 100) else Some n
  end.

Definition clamp (n a b : float) : float := Math_max a (Math_min b n).

Definition toMonths (ageValue : value) (unit : string) : option float :=
  match safeNum ageValue with
  | None => None
  | Some v =>
      if (unit =? "days")%string then Some (v / 30.4375)
      else if (unit =? "years")%string then Some (v * 12)
      else Some v
  end.

Definition calcSF (spo2 fio2 : value) : option float :=
  match safeNum spo2, parseFiO2 fio2 with
  | Some s, Some f => if f <=? 0 then None else Some (s / f)
  | _, _ => None
  end.

Definition pctChange (newV oldV : value) : option float :=
  match safeNum newV, safeNum oldV with
  | Some a, Some b => if b =? 0 then None else Some ((a - b) / b * 100)
  | _, _ => None
  end.

(** ** [computeRisk] *)

Local Open Scope list_scope.

Local Notation "a +++ b" := (String.append a b)
  (at level 60, right associativity).

Definition operationalCriteria (d : snapshot) : bool :=
  existsb Boolean [cfHypox d; cfWork d; cfHypercap d; cfIntol d].

Definition redFlags (d : snapshot) : bool :=
  existsb Boolean [rfHemodyn d; rfGcs d; rfSecretions d; rfApnea d; rfPtx d].

(** [score += pts] *)
Definition add (pts : float) (t : tally) : tally :=
  {| running := running t + pts; factors := factors t |}.

(** [addFactor(w, label)]: [factors.push({w, label})] *)
Definition addFactor (wt : float) (lbl : string) (t : tally) : tally :=
  {| running := running t;
     factors := factors t ++ [{| w := wt; label := lbl |}] |}.

(** 1) SF at 1–2 h *)
Definition scoreSF (sf1 : option float) (t : tally) : tally :=
  match sf1 with
  | Some sf =>
      if sf <? 150 then
        addFactor 40 ("SF 1–2 h < 150 (SF=" +++ Number_toFixed sf 0 +++ ")")
          (add 40 t)
      else if sf <? 193 then
        addFactor 30 ("SF 1–2 h < 193 (SF=" +++ Number_toFixed sf 0 +++ ")")
          (add 30 t)
      else if sf <? 220 then
        addFactor 18 ("SF 1–2 h 193–219 (SF=" +++ Number_toFixed sf 0 +++ ")")
          (add 18 t)
      else if sf <? 260 then
        addFactor 10 ("SF 1–2 h 220–259 (SF=" +++ Number_toFixed sf 0 +++ ")")
          (add 10 t)
      else add 3 t
  | None => add 10 t
  end.

(** 2) Change in RR *)
Definition scoreRR (drrPct : option float) (t : tally) : tally :=
  match drrPct with
  | Some p =>
      if 0 <=? p then addFactor 18 "FR não melhorou / piorou" (add 18 t)
      else if -10 <? p then addFactor 12 "Queda de FR < 10%" (add 12 t)
      else if -20 <? p then add 7 t
      else add 2 t
  | None => add 6 t
  end.

(** 3) Change in HR *)
Definition scoreHR (dhrPct : option float) (t : tally) : tally :=
  match dhrPct with
  | Some p =>
      if 0 <=? p then add 10 t
      else if -5 <? p then add 7 t
      else if -10 <? p then add 4 t
      else add 1 t
  | None => add 3 t
  end.

(** 4) Age risk *)
Definition scoreAge (ageM : option float) (t : tally) : tally :=
  match ageM with
  | Some m =>
      if m <? 6 then addFactor 10 "Idade < 6 meses" (add 10 t)
      else if m <? 12 then add 6 t
      else add 2 t
  | None => add 4 t
  end.

(** 5) ARF type / diagnosis *)
Definition scoreType (arfType : string) (t : tally) : tally :=
  if (arfType =? "type1")%string
  then addFactor 10 "IRA hipoxémica (tipo 1)" (add 10 t)
  else t.

Definition scoreDiag (diag : string) (t : tally) : tally :=
  if (diag =? "ards")%string then addFactor 12 "ARDS" (add 12 t)
  else if (diag =? "pneumonia")%string then addFactor 8 "Pneumonia" (add 8 t)
  else t.

(** 6) FiO2 at initiation *)
Definition scoreFiO2 (fio2_0 : option float) (t : tally) : tally :=
  match fio2_0 with
  | Some f =>
      if 0.8 <=? f then add 8 t
      else if 0.6 <=? f then add 5 t
      else if 0.4 <=? f then add 3 t
      else add 1 t
  | None => t
  end.

(** 7) PRISM *)
Definition scorePrism (prism : option float) (t : tally) : tally :=
  match prism with
  | Some p =>
      if 10 <=? p then add 10 t
      else if 5 <=? p then add 6 t
      else if 1 <=? p then add 3 t
      else t
  | None => t
  end.

(** 8) IPAP at 1–2 h *)
Definition scoreIpap (ipap : option float) (t : tally) : tally :=
  match ipap with
  | Some p =>
      if 18 <=? p then add 6 t
      else if 14 <=? p then add 3 t
      else t
  | None => t
  end.

(** 9) pCO2 / pH trend *)
Definition scorePco2 (dpco2 : option float) (t : tally) : tally :=
  match dpco2 with
  | Some c =>
      if 5 <=? c then add 6 t
      else if 0 <=? c then add 3 t
      else add 1 t
  | None => t
  end.

Definition scorePh (ph0 ph1 : option float) (t : tally) : tally :=
  match ph0, ph1 with
  | Some p0, Some p1 =>
      if p1 <? p0 - 0.02 then add 4 t
      else if p1 <? p0 + 0.01 then add 2 t
      else t
  | _, _ => t
  end.

(** red flags override *)
Definition overrideRedFlags (redFlags : bool) (t : tally) : tally :=
  if redFlags then
    addFactor 50 "Red flags clínicas"
      {| running := Math_max (running t) 85; factors := factors t |}
  else t.

(** Contexto de oxigenação *)
Definition oxygenContext (sf1 fio2_1 : option float) : option string :=
  let oxy :=
    match sf1 with
    | Some sf =>
        if sf <? 150 then ["SF muito baixo"]
        else if sf <? 193 then ["SF baixo (<193)"]
        else ["SF aceitável"]
    | None => []
    end
    ++
    match fio2_1 with
    | Some f =>
        if 0.7 <=? f then ["FiO₂ alta (≥0.70)"]
        else if 0.5 <=? f then ["FiO₂ moderada (0.50–0.69)"]
        else ["FiO₂ baixa/moderada (<0.50)"]
    | None => []
    end in
  match oxy with
  | [] => None
  | _ => Some (join " • " oxy)
  end.

(** tiering: [(tier, badge)] *)
Definition tiering (score : float) : string * string :=
  if 85 <=? score then ("Muito alto", "ALTO RISCO")
  else if 65 <=? score then ("Alto", "RISCO ↑")
  else if 45 <=? score then ("Intermédio", "RISCO ↔")
  else ("Baixo", "RISCO ↓").

(** [if (c) list.push(x)] as a piece of the list being built. *)
Definition pushIf (c : bool) (x : string) : list string :=
  if c then [x] else [].

Definition below (x : option float) (cut : float) : bool :=
  match x with
  | Some v => v <? cut
  | None => false
  end.

Definition above (x : option float) (cut : float) : bool :=
  match x with
  | Some v => cut <? v
  | None => false
  end.

Definition atLeast (x : option float) (cut : float) : bool :=
  match x with
  | Some v => cut <=? v
  | None => false
  end.

Definition fixed0 (x : option float) (missing : string) : string :=
  match x with
  | Some v => Number_toFixed v 0
  | None => missing
  end.

(** explanations *)
Definition explanation (redFlags operationalCriteria : bool)
    (sf1 drrPct ageM : option float) (arfType diag : string)
    (prism : option float) : string :=
  let notes :=
    pushIf redFlags
      "Há red flags clínicas assinaladas (isto pesa mais do que qualquer score)."
    ++ pushIf operationalCriteria
      "Critérios operacionais de falência assinalados (gatilhos de escalada)."
    ++ pushIf (below sf1 193)
      ("SF a 1–2 h < 193 (SF=" +++ fixed0 sf1 EmptyString
       +++ "): marcador de alto risco de falência precoce em coorte pediátrica.")
    ++ pushIf (above drrPct (-10))
      "Redução de FR < 10% (ou pior): resposta precoce fraca está associada a falência em estudos prospetivos."
    ++ pushIf (below ageM 6)
      "Idade < 6 meses: maior risco de falência (sincronia/leaks, gravidade)."
    ++ pushIf (arfType =? "type1")%string
      "IRA hipoxémica (tipo 1): maior risco de falência vs. tipo 2 em coorte pediátrica."
    ++ pushIf (diag =? "ards")%string
      "ARDS: associada a maiores taxas de falência."
    ++ pushIf (atLeast prism 5)
      "PRISM elevado associa-se a falência em várias coortes." in
  match notes with
  | [] => "Sem sinais fortes de alto risco com os dados fornecidos."
  | _ => join " " notes
  end.

(** action suggestions *)
Definition suggestions (operationalCriteria redFlags : bool) (score : float)
    (sf1 : option float) : list string :=
  pushIf operationalCriteria
    "Há gatilhos assinalados: definir janela curta de reavaliação e plano de escalada (ex: intubação/VM se deterioração)."
  ++ (if (65 <=? score) || redFlags then
        [ "Monitorização contínua e reavaliação frequente (ex: 15–30 min), com plano explícito de escalada.";
          "Verificar interface/leaks, sincronização, conforto; optimizar IPAP/EPAP conforme objetivo (oxigenação vs ventilação) e tolerância.";
          "Reavaliar causa reversível e terapêutica específica (broncoespasmo, secreções, fluidos, antibiótico, etc.).";
          "Considerar precocemente equipa e logística de intubação, sobretudo se SF < 193 a 1–2 h ou deterioração clínica." ]
      else if 45 <=? score then
        [ "Reavaliar resposta nas próximas 30–60 min; confirmar tendência de FR/FC e SF.";
          "Optimizar interface e parâmetros; documentar critérios de falência e gatilhos de escalada." ]
      else
        [ "Manter VNI com vigilância e reavaliação seriada; confirmar melhoria sustentada de FR/FC e SF." ])
  ++ pushIf (below sf1 193)
    "Se não atingir SF ~190 após 1 h de VNI, a necessidade de intubação deve ser ponderada no contexto clínico global.".

(** summary *)
Definition summaryText (arfType diag : string) (ageM prism : option float)
    (sf0 sf1 drrPct dhrPct dpco2 : option float) (score : float)
    (tier : string) (redFlags : bool) : string :=
  let lines :=
    [ "VNI Pediátrica — Predição precoce (apoio à decisão)";
      "Idade: "
        +++ match ageM with Some m => Number_toFixed m 1 | None => "?" end
        +++ " meses | IRA: "
        +++ (if (arfType =? "type1")%string then "Hipoxémica (tipo 1)"
             else "Hipercápnica/hipoventilação (tipo 2)")
        +++ " | Dx: " +++ diag ]
    ++ match prism with
       | Some p => ["PRISM III-24: " +++ Number_toString p]
       | None => []
       end
    ++ [ "SF0: " +++ fixed0 sf0 "—"
         +++ " | SF1-2h: " +++ fixed0 sf1 "—"
         +++ " | ΔFR: "
         +++ match drrPct with
             | Some p => Number_toFixed p 0 +++ "%"
             | None => "—"
             end
         +++ " | ΔFC: "
         +++ match dhrPct with
             | Some p => Number_toFixed p 0 +++ "%"
             | None => "—"
             end ]
    ++ match dpco2 with
       | Some c =>
           [ "ΔpCO2: " +++ (if 0 <? c then "+" else EmptyString)
             +++ Number_toFixed c 0 +++ " mmHg" ]
       | None => []
       end
    ++ [ "Score: " +++ Number_toString score +++ "/100 | Tier: " +++ tier ]
    ++ pushIf redFlags "Red flags: SIM" in
  join newline lines.

(** brief *)
Definition briefText (sf1 drrPct dhrPct : option float) : string :=
  let briefParts :=
    match sf1 with
    | Some v => ["SF1-2h=" +++ Number_toFixed v 0]
    | None => []
    end
    ++ match drrPct with
       | Some p => ["ΔFR=" +++ Number_toFixed p 0 +++ "%"]
       | None => []
       end
    ++ match dhrPct with
       | Some p => ["ΔFC=" +++ Number_toFixed p 0 +++ "%"]
       | None => []
       end in
  join " | " briefParts.

Definition computeRisk (d : snapshot) : assessment :=
  let operationalCriteria := operationalCriteria d in
  let redFlags := redFlags d in
  (* derived *)
  let sf0 := calcSF (spo2_0 d) (fio2_0 d) in
  let sf1 := calcSF (spo2_1 d) (fio2_1 d) in
  let drrPct :=
    match safeNum (rr_1 d), safeNum (rr_0 d) with
    | Some _, Some _ => pctChange (rr_1 d) (rr_0 d)
    | _, _ => None
    end in
  let dhrPct :=
    match safeNum (hr_1 d), safeNum (hr_0 d) with
    | Some _, Some _ => pctChange (hr_1 d) (hr_0 d)
    | _, _ => None
    end in
  let dpco2 :=
    match safeNum (pco2_0 d), safeNum (pco2_1 d) with
    | Some p0, Some p1 => Some (p1 - p0)
    | _, _ => None
    end in
  let ageM := toMonths (ageValue d) (ageUnit d) in
  (* score components *)
  let t := {| running := 0; factors := [] |} in
  let t := scoreSF sf1 t in
  let t := scoreRR drrPct t in
  let t := scoreHR dhrPct t in
  let t := scoreAge ageM t in
  let t := scoreType (arfType d) t in
  let t := scoreDiag (diag d) t in
  let fio2_0 := safeNum (fio2_0 d) in
  let t := scoreFiO2 fio2_0 t in
  let prism := safeNum (prism d) in
  let t := scorePrism prism t in
  let ipap := safeNum (ipap_1 d) in
  let t := scoreIpap ipap t in
  let ph0 := safeNum (ph_0 d) in
  let ph1 := safeNum (ph_1 d) in
  let t := scorePco2 dpco2 t in
  let t := scorePh ph0 ph1 t in
  let fio2_1 := parseFiO2 (fio2_1 d) in
  let oxyCtx := oxygenContext sf1 fio2_1 in
  let t := overrideRedFlags redFlags t in
  let score := clamp (Math_round (running t)) 0 100 in
  let tier := fst (tiering score) in
  let badge := snd (tiering score) in
  let factors := Array_sort (fun a b => w b - w a) (factors t) in
  {| sf0 := sf0;
     sf1 := sf1;
     drrPct := drrPct;
     dhrPct := dhrPct;
     dpco2 := dpco2;
     oxyCtx := oxyCtx;
     score := score;
     tier := tier;
     badge := badge;
     explain :=
       explanation redFlags operationalCriteria sf1 drrPct ageM
         (arfType d) (diag d) prism;
     actions := suggestions operationalCriteria redFlags score sf1;
     summary :=
       summaryText (arfType d) (diag d) ageM prism sf0 sf1 drrPct dhrPct
         dpco2 score tier redFlags;
     topFactors := map label (Array_slice 0 3 factors);
     brief := briefText sf1 drrPct dhrPct |}.

(** ** Vocabulary of the statements *)

(** A natural number below [2^63] as a number. *)
Definition whole (k : Z) : float := of_uint63 (Uint63.of_Z k).

(** [x] is the integer [k] for some [lo <= k <= hi]. *)
Definition between (lo hi : Z) (x : float) : Prop :=
  exists k, lo <= k <= hi /\ x = whole k.

Definition upto (n : nat) : list Z := map Z.of_nat (seq 0 n).

(** The local [score] and the array [factors] of [computeRisk d] after
    the nine score components, and after the red-flag override. *)
Definition tallied (d : snapshot) : tally :=
  let out := computeRisk d in
  scorePh (safeNum (ph_0 d)) (safeNum (ph_1 d))
    (scorePco2 (dpco2 out)
       (scoreIpap (safeNum (ipap_1 d))
          (scorePrism (safeNum (prism d))
             (scoreFiO2 (safeNum (fio2_0 d))
                (scoreDiag (diag d)
                   (scoreType (arfType d)
                      (scoreAge (toMonths (ageValue d) (ageUnit d))
                         (scoreHR (dhrPct out)
                            (scoreRR (drrPct out)
                               (scoreSF (sf1 out)
                                  {| running := 0; factors := [] |})))))))))).

Definition overridden (d : snapshot) : tally :=
  overrideRedFlags (redFlags d) (tallied d).

(** A score component adds between [lo] and [hi] points to a tally whose
    score is an integer [k]. *)
Definition contributes (step : tally -> tally) (lo hi : Z) : Prop :=
  forall t k, 0 <= k <= 150 -> running t = whole k ->
    exists c, lo <= c <= hi /\ running (step t) = whole (k + c).

(** The entries that a score component appends to the array. *)
Definition records (step : tally -> tally) (entries : list factor) : Prop :=
  forall t, factors (step t) = factors t ++ entries.

(** A score component adds [pts] points and records no entry. *)
Definition silent (step : tally -> tally) (pts : Z) : Prop :=
  contributes step pts pts /\ records step [].

Definition entry (wt : float) (lbl : string) : factor :=
  {| w := wt; label := lbl |}.

(** The labelled entries, component by component, from the derived
    values: only the four SF bands below 260, the RR bands [>= 0] and
    [> -10], age below 6 months, the hypoxemic type, ARDS, pneumonia and
    the red flags have one. *)
Definition sfEntries (sf1 : option float) : list factor :=
  match sf1 with
  | Some sf =>
      if sf <? 150 then
        [entry 40 ("SF 1–2 h < 150 (SF=" +++ Number_toFixed sf 0 +++ ")")]
      else if sf <? 193 then
        [entry 30 ("SF 1–2 h < 193 (SF=" +++ Number_toFixed sf 0 +++ ")")]
      else if sf <? 220 then
        [entry 18 ("SF 1–2 h 193–219 (SF=" +++ Number_toFixed sf 0 +++ ")")]
      else if sf <? 260 then
        [entry 10 ("SF 1–2 h 220–259 (SF=" +++ Number_toFixed sf 0 +++ ")")]
      else []
  | None => []
  end.

Definition rrEntries (drrPct : option float) : list factor :=
  if atLeast drrPct 0 then [entry 18 "FR não melhorou / piorou"]
  else if above drrPct (-10) then [entry 12 "Queda de FR < 10%"]
  else [].

Definition ageEntries (ageM : option float) : list factor :=
  if below ageM 6 then [entry 10 "Idade < 6 meses"] else [].

Definition typeEntries (arfType : string) : list factor :=
  if (arfType =? "type1")%string then [entry 10 "IRA hipoxémica (tipo 1)"]
  else [].

Definition diagEntries (diag : string) : list factor :=
  if (diag =? "ards")%string then [entry 12 "ARDS"]
  else if (diag =? "pneumonia")%string then [entry 8 "Pneumonia"]
  else [].

Definition redEntries (redFlags : bool) : list factor :=
  if redFlags then [entry 50 "Red flags clínicas"] else [].

Definition labelled (sf1 drrPct ageM : option float) (arfType diag : string)
    (redFlags : bool) : list factor :=
  sfEntries sf1 ++ rrEntries drrPct ++ ageEntries ageM
  ++ typeEntries arfType ++ diagEntries diag ++ redEntries redFlags.

(** The tier and the badge of an integer score, in the words of the
    code. *)
Definition classify (j : Z) : string * string :=
  if (85 <=? j)%Z then ("Muito alto", "ALTO RISCO")
  else if (65 <=? j)%Z then ("Alto", "RISCO ↑")
  else if (45 <=? j)%Z then ("Intermédio", "RISCO ↔")
  else ("Baixo", "RISCO ↓").

(** The tier and the badge of an integer score with the names that the
    specification gives them. *)
Definition classifyNamed (j : Z) : string * string :=
  if (85 <=? j)%Z then ("Very High", "HIGH RISK")
  else if (65 <=? j)%Z then ("High", "RISK ↑")
  else if (45 <=? j)%Z then ("Intermediate", "RISK ↔")
  else ("Low", "RISK ↓").

(** [d] with its four operational-criteria flags replaced. *)
Definition withCriteria (d : snapshot) (hypox work hypercap intol : bool)
  : snapshot :=
  {| ageValue := ageValue d; ageUnit := ageUnit d; arfType := arfType d;
     diag := diag d; prism := prism d;
     rfHemodyn := rfHemodyn d; rfGcs := rfGcs d;
     rfSecretions := rfSecretions d; rfApnea := rfApnea d; rfPtx := rfPtx d;
     cfHypox := hypox; cfWork := work; cfHypercap := hypercap;
     cfIntol := intol;
     spo2_0 := spo2_0 d; fio2_0 := fio2_0 d; epap_0 := epap_0 d;
     rr_0 := rr_0 d; hr_0 := hr_0 d; ph_0 := ph_0 d; pco2_0 := pco2_0 d;
     spo2_1 := spo2_1 d; fio2_1 := fio2_1 d; rr_1 := rr_1 d; hr_1 := hr_1 d;
     ipap_1 := ipap_1 d; epap_1 := epap_1 d; ph_1 := ph_1 d;
     pco2_1 := pco2_1 d |}.

(** [d'] differs from [d] in the four operational-criteria flags at
    most. *)
Definition differOnlyInCriteria (d d' : snapshot) : Prop :=
  d' = withCriteria d (cfHypox d') (cfWork d') (cfHypercap d') (cfIntol d').

(** The place of a number in the order of binary64, none for NaN: the
    sign class first, then the exponent, then the mantissa. *)
Definition rank (f : spec_float) : option (Z * Z * Z) :=
  match f with
  | S754_nan => None
  | S754_infinity true => Some (-2, 0, 0)%Z
  | S754_finite true m e => Some (-1, - e, Zneg m)%Z
  | S754_zero _ => Some (0, 0, 0)%Z
  | S754_finite false m e => Some (1, e, Zpos m)%Z
  | S754_infinity false => Some (2, 0, 0)%Z
  end.

Definition lex (a b : Z * Z * Z) : comparison :=
  let '(a1, a2, a3) := a in
  let '(b1, b2, b3) := b in
  match (a1 ?= b1)%Z with
  | Eq => match (a2 ?= b2)%Z with Eq => (a3 ?= b3)%Z | c => c end
  | c => c
  end.

(** ** Snapshots used as examples *)

(** The form as [fill({})] leaves it. *)
Definition blank : snapshot :=
  {| ageValue := EmptyString; ageUnit := "months"; arfType := "type2";
     diag := "bronchiolitis"; prism := EmptyString;
     rfHemodyn := false; rfGcs := false; rfSecretions := false;
     rfApnea := false; rfPtx := false;
     cfHypox := false; cfWork := false; cfHypercap := false;
     cfIntol := false;
     spo2_0 := EmptyString; fio2_0 := EmptyString; epap_0 := EmptyString;
     rr_0 := EmptyString; hr_0 := EmptyString; ph_0 := EmptyString;
     pco2_0 := EmptyString;
     spo2_1 := EmptyString; fio2_1 := EmptyString; rr_1 := EmptyString;
     hr_1 := EmptyString; ipap_1 := EmptyString; epap_1 := EmptyString;
     ph_1 := EmptyString; pco2_1 := EmptyString |}.

(** Scenario A: saturation 90 on 60% oxygen at 1–2 h, 3 months old,
    type 2, bronchiolitis, nothing else entered. *)
Definition scenarioA : snapshot :=
  {| ageValue := "3"; ageUnit := "months"; arfType := "type2";
     diag := "bronchiolitis"; prism := EmptyString;
     rfHemodyn := false; rfGcs := false; rfSecretions := false;
     rfApnea := false; rfPtx := false;
     cfHypox := false; cfWork := false; cfHypercap := false;
     cfIntol := false;
     spo2_0 := EmptyString; fio2_0 := EmptyString; epap_0 := EmptyString;
     rr_0 := EmptyString; hr_0 := EmptyString; ph_0 := EmptyString;
     pco2_0 := EmptyString;
     spo2_1 := "90"; fio2_1 := "60"; rr_1 := EmptyString;
     hr_1 := EmptyString; ipap_1 := EmptyString; epap_1 := EmptyString;
     ph_1 := EmptyString; pco2_1 := EmptyString |}.

(** Scenario B: every red flag set and nothing else entered. *)
Definition scenarioB : snapshot :=
  {| ageValue := EmptyString; ageUnit := "months"; arfType := "type2";
     diag := "bronchiolitis"; prism := EmptyString;
     rfHemodyn := true; rfGcs := true; rfSecretions := true;
     rfApnea := true; rfPtx := true;
     cfHypox := false; cfWork := false; cfHypercap := false;
     cfIntol := false;
     spo2_0 := EmptyString; fio2_0 := EmptyString; epap_0 := EmptyString;
     rr_0 := EmptyString; hr_0 := EmptyString; ph_0 := EmptyString;
     pco2_0 := EmptyString;
     spo2_1 := EmptyString; fio2_1 := EmptyString; rr_1 := EmptyString;
     hr_1 := EmptyString; ipap_1 := EmptyString; epap_1 := EmptyString;
     ph_1 := EmptyString; pco2_1 := EmptyString |}.

(** A 45-day-old with ARDS, every component in its worst band, one red
    flag and one operational criterion. *)
Definition severe : snapshot :=
  {| ageValue := "45"; ageUnit := "days"; arfType := "type1";
     diag := "ards"; prism := "12,5";
     rfHemodyn := false; rfGcs := true; rfSecretions := false;
     rfApnea := false; rfPtx := false;
     cfHypox := true; cfWork := false; cfHypercap := false;
     cfIntol := false;
     spo2_0 := "88"; fio2_0 := "0.8"; epap_0 := "5";
     rr_0 := "60"; hr_0 := "170"; ph_0 := "7.30"; pco2_0 := "50";
     spo2_1 := "91"; fio2_1 := "70"; rr_1 := "62";
     hr_1 := "175"; ipap_1 := "19"; epap_1 := "6";
     ph_1 := "7.25"; pco2_1 := "57" |}.

(** A 2-year-old responding well: SF 471, RR down by a third, HR down by
    an eighth, no optional value entered. *)
Definition favourable : snapshot :=
  {| ageValue := "2"; ageUnit := "years"; arfType := "type2";
     diag := "bronchiolitis"; prism := EmptyString;
     rfHemodyn := false; rfGcs := false; rfSecretions := false;
     rfApnea := false; rfPtx := false;
     cfHypox := false; cfWork := false; cfHypercap := false;
     cfIntol := false;
     spo2_0 := EmptyString; fio2_0 := EmptyString; epap_0 := EmptyString;
     rr_0 := "60"; hr_0 := "160"; ph_0 := EmptyString;
     pco2_0 := EmptyString;
     spo2_1 := "99"; fio2_1 := "21"; rr_1 := "40";
     hr_1 := "140"; ipap_1 := EmptyString; epap_1 := EmptyString;
     ph_1 := EmptyString; pco2_1 := EmptyString |}.

(** An 8-month-old with unchanged HR and RR down by 15%: the HR band
    [>= 0], the RR band [> -20] and the age band [< 12] fire. *)
Definition unlabelled : snapshot :=
  {| ageValue := "8"; ageUnit := "months"; arfType := "type2";
     diag := "bronchiolitis"; prism := EmptyString;
     rfHemodyn := false; rfGcs := false; rfSecretions := false;
     rfApnea := false; rfPtx := false;
     cfHypox := false; cfWork := false; cfHypercap := false;
     cfIntol := false;
     spo2_0 := EmptyString; fio2_0 := EmptyString; epap_0 := EmptyString;
     rr_0 := "40"; hr_0 := "120"; ph_0 := EmptyString;
     pco2_0 := EmptyString;
     spo2_1 := EmptyString; fio2_1 := EmptyString; rr_1 := "34";
     hr_1 := "120"; ipap_1 := EmptyString; epap_1 := EmptyString;
     ph_1 := EmptyString; pco2_1 := EmptyString |}.

(** ** The page around the engine *)

(** *** The history kept in [localStorage] *)

Module History.

Section Entries.

(** The values that [JSON.parse] returns. *)
Variable A : Type.

(** What [localStorage.getItem(LS_HISTORY)] holds, as [loadHistory]
    reads it: nothing or the empty string, a text that [JSON.parse]
    rejects, the text of a value that is not an array, or the text of
    an array.  [JSON.stringify] writes an array as a text that
    [JSON.parse] reads back as that array. *)
Inductive stored :=
| Missing
| Unparsable
| NotArray
| Entries (arr : list A).

Definition loadHistory (st : stored) : list A :=
  match st with
  | Entries arr => arr
  | Missing | Unparsable | NotArray => []
  end.

(** [pushHistory(entry)]: the array returned and the new content of
    the store. *)
Definition pushHistory (entry : A) (st : stored) : list A * stored :=
  let hist := loadHistory st in
  let hist := entry :: hist in
  let trimmed := Array_slice 0 10 hist in
  (trimmed, Entries trimmed).

(** The store after one [pushHistory] for each element of [entries],
    in order. *)
Definition pushAll (entries : list A) (st : stored) : stored :=
  fold_left (fun st entry => snd (pushHistory entry st)) entries st.

End Entries.

End History.

(** *** What the page shows *)

(** The texts and the badge style that [renderResult] writes, by the id
    of the element. *)
Record resultView := {
  view_sf0 : string;
  view_sf1 : string;
  view_oxyCtx : string;
  view_drr : string;
  view_dhr : string;
  view_dpco2 : string;
  view_score : string;
  riskBadge : string;
  riskLabel : string;
  riskExplain : string;
  borderColor : string;
  background : string;
  actionsList : list string;
  view_summary : string
}.

(** The badge style of a tier: border colour and background. *)
Definition badgeStyle (tier : string) : string * string :=
  if (tier =? "Muito alto")%string then
    ("rgba(239,68,68,.45)", "rgba(239,68,68,.12)")
  else if (tier =? "Alto")%string then
    ("rgba(245,158,11,.45)", "rgba(245,158,11,.12)")
  else if (tier =? "Intermédio")%string then
    ("rgba(59,130,246,.45)", "rgba(59,130,246,.12)")
  else if (tier =? "Baixo")%string then
    ("rgba(34,197,94,.45)", "rgba(34,197,94,.10)")
  else ("rgba(255,255,255,.08)", "rgba(255,255,255,.06)").

Definition renderResult (r : assessment) : resultView :=
  {| view_sf0 := fixed0 (sf0 r) "—";
     view_sf1 := fixed0 (sf1 r) "—";
     view_oxyCtx := match oxyCtx r with Some c => c | None => "—" end;
     view_drr :=
       match drrPct r with
       | Some p => Number_toFixed p 0 +++ "%"
       | None => "—"
       end;
     view_dhr :=
       match dhrPct r with
       | Some p => Number_toFixed p 0 +++ "%"
       | None => "—"
       end;
     view_dpco2 :=
       match dpco2 r with
       | Some c =>
           (if 0 <? c then "+" else EmptyString)
           +++ Number_toFixed c 0 +++ " mmHg"
       | None => "—"
       end;
     view_score := Number_toString (score r) +++ "/100";
     riskBadge := badge r;
     riskLabel := tier r;
     riskExplain :=
       explain r
       +++ match topFactors r with
           | [] => EmptyString
           | _ => "  Fatores principais: " +++ join "; " (topFactors r)
           end;
     borderColor := fst (badgeStyle (tier r));
     background := snd (badgeStyle (tier r));
     actionsList := actions r;
     view_summary := summary r |}.

(** The texts that [updateLivePreview] writes. *)
Record livePreview := {
  liveSf0 : string;
  liveSf1 : string;
  liveOxy : string
}.

Definition updateLivePreview (d : snapshot) : livePreview :=
  let sf0 := calcSF (spo2_0 d) (fio2_0 d) in
  let sf1 := calcSF (spo2_1 d) (fio2_1 d) in
  let fio2_1 := parseFiO2 (fio2_1 d) in
  let oxy :=
    match sf1 with
    | Some sf =>
        if sf <? 150 then ["SF muito baixo"]
        else if sf <? 193 then ["SF baixo (<193)"]
        else ["SF aceitável"]
    | None => []
    end
    ++
    match fio2_1 with
    | Some f =>
        if 0.7 <=? f then ["FiO₂ alta"]
        else if 0.5 <=? f then ["FiO₂ moderada"]
        else ["FiO₂ baixa/moderada"]
    | None => []
    end in
  {| liveSf0 := fixed0 sf0 "—";
     liveSf1 := fixed0 sf1 "—";
     liveOxy := match oxy with [] => "—" | _ => join " • " oxy end |}.

(** The text that [updateAgeHint] writes. *)
Definition updateAgeHint (ageValue : value) (ageUnit : string) : string :=
  match toMonths ageValue ageUnit with
  | None => "= — meses"
  | Some m => "= " +++ Number_toFixed m 1 +++ " meses"
  end.

(** ** Vocabulary of the further statements *)

(** [x] is not NaN, when it is a number at all. *)
Definition isNumber (x : option float) : Prop :=
  match x with
  | Some v => is_nan v = false
  | None => True
  end.

(** A binary64 value other than NaN and zero; a zero or finite one. *)
Definition nonzeroNumber (x : spec_float) : Prop :=
  match x with
  | S754_nan | S754_zero _ => False
  | _ => True
  end.

Definition finiteNumber (x : spec_float) : Prop :=
  match x with
  | S754_zero _ | S754_finite _ _ _ => True
  | _ => False
  end.

(** A score component adds the same number of points, between [lo] and
    [hi], to every tally. *)
Definition fixedPoints (step : tally -> tally) (lo hi : Z) : Prop :=
  exists c, lo <= c <= hi /\ contributes step c c.

(** [low] never leaves a higher score than [high]. *)
Definition noMore (low high : tally -> tally) : Prop :=
  forall t k, 0 <= k <= 150 -> running t = whole k ->
    (running (low t) <=? running (high t)) = true.

(** The score components that follow the SF component, on the tally
    that it leaves. *)
Definition afterSF (d : snapshot) (t : tally) : tally :=
  let out := computeRisk d in
  scorePh (safeNum (ph_0 d)) (safeNum (ph_1 d))
    (scorePco2 (dpco2 out)
       (scoreIpap (safeNum (ipap_1 d))
          (scorePrism (safeNum (prism d))
             (scoreFiO2 (safeNum (fio2_0 d))
                (scoreDiag (diag d)
                   (scoreType (arfType d)
                      (scoreAge (toMonths (ageValue d) (ageUnit d))
                         (scoreHR (dhrPct out)
                            (scoreRR (drrPct out) t))))))))).

(** Two tallies with integer scores, the first not above the second and
    the second at most [hi]. *)
Definition trails (t1 t2 : tally) (hi : Z) : Prop :=
  exists k1 k2, 0 <= k1 <= k2 /\ k2 <= hi
    /\ running t1 = whole k1 /\ running t2 = whole k2.

(** The weight of an entry is a natural number up to 50. *)
Definition smallWeight (f : factor) : Prop :=
  exists k, 0 <= k <= 50 /\ w f = whole k.

(** [x] is ranked no later than [y]: its weight is at least that of
    [y]. *)
Definition heavier (x y : factor) : Prop := (w y <=? w x) = true.

Definition hasWeight (v : float) (f : factor) : bool := w f =? v.

(** The actions that go with a tier. *)
Definition tierActions (tier : string) : list string :=
  if (tier =? "Muito alto")%string || (tier =? "Alto")%string then
    [ "Monitorização contínua e reavaliação frequente (ex: 15–30 min), com plano explícito de escalada.";
      "Verificar interface/leaks, sincronização, conforto; optimizar IPAP/EPAP conforme objetivo (oxigenação vs ventilação) e tolerância.";
      "Reavaliar causa reversível e terapêutica específica (broncoespasmo, secreções, fluidos, antibiótico, etc.).";
      "Considerar precocemente equipa e logística de intubação, sobretudo se SF < 193 a 1–2 h ou deterioração clínica." ]
  else if (tier =? "Intermédio")%string then
    [ "Reavaliar resposta nas próximas 30–60 min; confirmar tendência de FR/FC e SF.";
      "Optimizar interface e parâmetros; documentar critérios de falência e gatilhos de escalada." ]
  else
    [ "Manter VNI com vigilância e reavaliação seriada; confirmar melhoria sustentada de FR/FC e SF." ].

(** Every character is a space, a tab or a line break. *)
Fixpoint allBlank (s : string) : bool :=
  match s with
  | EmptyString => true
  | String c r => isAsciiSpace c && allBlank r
  end.

(** [d] with the two EPAP fields replaced. *)
Definition withEpap (d : snapshot) (e0 e1 : string) : snapshot :=
  {| ageValue := ageValue d; ageUnit := ageUnit d; arfType := arfType d;
     diag := diag d; prism := prism d;
     rfHemodyn := rfHemodyn d; rfGcs := rfGcs d;
     rfSecretions := rfSecretions d; rfApnea := rfApnea d; rfPtx := rfPtx d;
     cfHypox := cfHypox d; cfWork := cfWork d; cfHypercap := cfHypercap d;
     cfIntol := cfIntol d;
     spo2_0 := spo2_0 d; fio2_0 := fio2_0 d; epap_0 := e0;
     rr_0 := rr_0 d; hr_0 := hr_0 d; ph_0 := ph_0 d; pco2_0 := pco2_0 d;
     spo2_1 := spo2_1 d; fio2_1 := fio2_1 d; rr_1 := rr_1 d; hr_1 := hr_1 d;
     ipap_1 := ipap_1 d; epap_1 := e1; ph_1 := ph_1 d;
     pco2_1 := pco2_1 d |}.

(** [d] with the saturation at initiation replaced. *)
Definition withSpo2_0 (d : snapshot) (s : string) : snapshot :=
  {| ageValue := ageValue d; ageUnit := ageUnit d; arfType := arfType d;
     diag := diag d; prism := prism d;
     rfHemodyn := rfHemodyn d; rfGcs := rfGcs d;
     rfSecretions := rfSecretions d; rfApnea := rfApnea d; rfPtx := rfPtx d;
     cfHypox := cfHypox d; cfWork := cfWork d; cfHypercap := cfHypercap d;
     cfIntol := cfIntol d;
     spo2_0 := s; fio2_0 := fio2_0 d; epap_0 := epap_0 d;
     rr_0 := rr_0 d; hr_0 := hr_0 d; ph_0 := ph_0 d; pco2_0 := pco2_0 d;
     spo2_1 := spo2_1 d; fio2_1 := fio2_1 d; rr_1 := rr_1 d; hr_1 := hr_1 d;
     ipap_1 := ipap_1 d; epap_1 := epap_1 d; ph_1 := ph_1 d;
     pco2_1 := pco2_1 d |}.

(** [d] with the saturation and the oxygen input at 1–2 h replaced. *)
Definition withOxygen1 (d : snapshot) (s f : string) : snapshot :=
  {| ageValue := ageValue d; ageUnit := ageUnit d; arfType := arfType d;
     diag := diag d; prism := prism d;
     rfHemodyn := rfHemodyn d; rfGcs := rfGcs d;
     rfSecretions := rfSecretions d; rfApnea := rfApnea d; rfPtx := rfPtx d;
     cfHypox := cfHypox d; cfWork := cfWork d; cfHypercap := cfHypercap d;
     cfIntol := cfIntol d;
     spo2_0 := spo2_0 d; fio2_0 := fio2_0 d; epap_0 := epap_0 d;
     rr_0 := rr_0 d; hr_0 := hr_0 d; ph_0 := ph_0 d; pco2_0 := pco2_0 d;
     spo2_1 := s; fio2_1 := f; rr_1 := rr_1 d; hr_1 := hr_1 d;
     ipap_1 := ipap_1 d; epap_1 := epap_1 d; ph_1 := ph_1 d;
     pco2_1 := pco2_1 d |}.

(** * Properties *)

(** ** Integers as numbers *)

Lemma In_upto (k : Z) (n : nat) : (0 <= k < Z.of_nat n)%Z -> In k (upto n).
Proof.
  intros H. unfold upto. apply in_map_iff. exists (Z.to_nat k). split.
  - lia.
  - apply in_seq. lia.
Qed.

(** A property of the numbers [whole 0] to [whole (n-1)] that a boolean
    test decides is proved by running the test on each of them. *)
Lemma upto_all (n : nat) (test : Z -> bool) :
  forallb test (upto n) = true ->
  forall k, (0 <= k < Z.of_nat n)%Z -> test k = true.
Proof.
  intros T k Hk. rewrite forallb_forall in T. apply T, In_upto, Hk.
Qed.

Lemma same_number (x y : float) : PrimFloat.Leibniz.eqb x y = true -> x = y.
Proof. apply FloatAxioms.Leibniz.eqb_spec. Qed.

Lemma different_number (x y : float) :
  PrimFloat.Leibniz.eqb x y = false -> x <> y.
Proof.
  intros H E. apply FloatAxioms.Leibniz.eqb_spec in E. congruence.
Qed.

(** Sums of small integers are exact. *)
Lemma whole_add (k c : Z) :
  (0 <= k <= 200)%Z -> (0 <= c <= 50)%Z -> whole k + whole c = whole (k + c).
Proof.
  intros Hk Hc. apply same_number.
  revert c Hc.
  assert (T : forall c, (0 <= c < Z.of_nat 51)%Z ->
                PrimFloat.Leibniz.eqb (whole k + whole c) (whole (k + c)) = true).
  { revert k Hk.
    assert (T : forall k, (0 <= k < Z.of_nat 201)%Z ->
              forallb (fun c => PrimFloat.Leibniz.eqb (whole k + whole c)
                                  (whole (k + c))) (upto 51) = true).
    { apply upto_all. vm_compute. reflexivity. }
    intros k Hk. apply upto_all, T. lia. }
  intros c Hc. apply T. lia.
Qed.

(** The end of the computation on an integer total: the override is the
    larger of the total and 85, rounding leaves the total as it is and
    clamping caps it at 100. *)
Lemma whole_max_85 (k : Z) :
  (0 <= k <= 200)%Z -> Math_max (whole k) 85 = whole (Z.max k 85).
Proof.
  intros Hk. apply same_number.
  apply (upto_all 201 (fun k =>
           PrimFloat.Leibniz.eqb (Math_max (whole k) 85) (whole (Z.max k 85)))).
  - vm_compute. reflexivity.
  - lia.
Qed.

Lemma whole_round_clamp (k : Z) :
  (0 <= k <= 200)%Z ->
  clamp (Math_round (whole k)) 0 100 = whole (Z.min k 100).
Proof.
  intros Hk. apply same_number.
  apply (upto_all 201 (fun k =>
           PrimFloat.Leibniz.eqb (clamp (Math_round (whole k)) 0 100)
             (whole (Z.min k 100)))).
  - vm_compute. reflexivity.
  - lia.
Qed.

(** Comparisons of a score with the cuts used after scoring. *)
Lemma whole_leb (c k : Z) :
  (0 <= c <= 100)%Z -> (0 <= k <= 100)%Z ->
  (whole c <=? whole k) = (c <=? k)%Z.
Proof.
  intros Hc Hk. apply eqb_true_iff.
  revert k Hk.
  assert (T : forall k, (0 <= k < Z.of_nat 101)%Z ->
     Bool.eqb (whole c <=? whole k) (c <=? k)%Z = true).
  { revert c Hc.
    assert (T : forall c, (0 <= c < Z.of_nat 101)%Z ->
      forallb (fun k => Bool.eqb (whole c <=? whole k) (c <=? k)%Z) (upto 101)
      = true).
    { apply upto_all. vm_compute. reflexivity. }
    intros c Hc. apply upto_all, T. lia. }
  intros k Hk. apply T. lia.
Qed.

Lemma whole_leb_true (c k : Z) :
  (0 <= c <= 100)%Z -> (0 <= k <= 100)%Z -> (c <= k)%Z ->
  (whole c <=? whole k) = true.
Proof. intros Hc Hk H. rewrite whole_leb by assumption. apply Z.leb_le, H. Qed.

(** ** The order of binary64 *)

Lemma SFcompare_rank (a b : spec_float) :
  SFcompare a b
  = match rank a, rank b with
    | Some x, Some y => Some (lex x y)
    | _, _ => None
    end.
Proof.
  destruct a as [[]|[]| |[] m1 e1], b as [[]|[]| |[] m2 e2];
    try reflexivity; cbn [SFcompare rank lex].
  rewrite Z.compare_opp, (Z.compare_antisym e1 e2). cbn.
  destruct (e1 ?= e2)%Z; reflexivity.
Qed.

Ltac order_cases :=
  repeat match goal with
         | |- context [(?a ?= ?b)%Z] => destruct (Z.compare_spec a b)
         | H : context [(?a ?= ?b)%Z] |- _ => destruct (Z.compare_spec a b)
         end;
  try discriminate; try reflexivity; try lia.

Ltac to_ranks :=
  rewrite ?leb_spec, ?ltb_spec; unfold SFleb, SFltb;
  rewrite !SFcompare_rank;
  repeat match goal with
         | |- context [rank (Prim2SF ?x)] =>
             destruct (rank (Prim2SF x)) as [[[? ?] ?]|]
         end;
  try discriminate; try reflexivity; unfold lex.

(** [b <= a <= x]: [x] is not below [b]. *)
Lemma not_below (a b x : float) :
  (a <=? x) = true -> (b <=? a) = true -> (x <? b) = false.
Proof. to_ranks. intros H1 H2. order_cases. Qed.

(** [x <= a <= b]: [x] is not above [b]. *)
Lemma not_above (a b x : float) :
  (x <=? a) = true -> (a <=? b) = true -> (b <? x) = false.
Proof. to_ranks. intros H1 H2. order_cases. Qed.

(** [x <= a < b]: [x] is not at least [b]. *)
Lemma not_at_least (a b x : float) :
  (x <=? a) = true -> (a <? b) = true -> (b <=? x) = false.
Proof. to_ranks. intros H1 H2. order_cases. Qed.

(** [x < b]: [x] is not at least [b]. *)
Lemma below_not_at_least (b x : float) :
  (x <? b) = true -> (b <=? x) = false.
Proof. to_ranks. intros H. order_cases. Qed.

(** ** Binary64 arithmetic *)

Lemma safeNum_finite (x : value) (a : float) :
  safeNum x = Some a -> is_finite a = true.
Proof.
  unfold safeNum, Number_isFinite.
  destruct x as [| |x]; try discriminate.
  destruct (isEmpty _); [discriminate|].
  destruct (is_finite (Number _)) eqn:E; [|discriminate].
  intros [= <-]. exact E.
Qed.

(** A finite number other than zero has a sign, a mantissa and an
    exponent. *)
Lemma finite_nonzero (a : float) :
  is_finite a = true -> (a =? 0) = false ->
  exists s m e, Prim2SF a = S754_finite s m e.
Proof.
  unfold is_finite, is_nan, is_infinity.
  rewrite !eqb_spec, abs_spec.
  change (Prim2SF infinity) with (S754_infinity false).
  change (Prim2SF 0) with (S754_zero false).
  destruct (Prim2SF a) as [s | s | | s m e]; cbn; intros H1 H2.
  - discriminate.
  - rewrite orb_true_r in H1. discriminate.
  - discriminate.
  - exists s, m, e. reflexivity.
Qed.

(** The percent change of a finite non-zero number to itself is zero. *)
Lemma unchanged_is_zero (a : float) :
  is_finite a = true -> (a =? 0) = false ->
  ((a - a) / a * 100 =? 0) = true /\ (0 <=? (a - a) / a * 100) = true.
Proof.
  intros F N. destruct (finite_nonzero a F N) as (s & m & e & E).
  rewrite eqb_spec, leb_spec, mul_spec, div_spec, sub_spec, E.
  change (Prim2SF 0) with (S754_zero false).
  assert (D : SF64sub (S754_finite s m e) (S754_finite s m e) = S754_zero false).
  { unfold SF64sub, SFsub. rewrite Z.min_id. unfold shl_align.
    rewrite Z.sub_diag. reflexivity. }
  rewrite D.
  destruct (Prim2SF 100) eqn:H; try (vm_compute in H; discriminate H).
  destruct s, s0; split; reflexivity.
Qed.

(** ** What each score component adds *)

Ltac adds_points c :=
  exists c; split;
  [ lia
  | first [ rewrite Z.add_0_r; reflexivity
          | apply (whole_add _ c); lia ] ].

Ltac component :=
  intros t k Hk Ht;
  repeat match goal with
         | |- context [match ?x with Some _ => _ | None => _ end] => destruct x
         | |- context [if ?b then _ else _] => destruct b
         end;
  cbn [running add addFactor]; try rewrite Ht;
  first [ adds_points 0%Z | adds_points 1%Z | adds_points 2%Z
        | adds_points 3%Z | adds_points 4%Z | adds_points 5%Z
        | adds_points 6%Z | adds_points 7%Z | adds_points 8%Z
        | adds_points 10%Z | adds_points 12%Z | adds_points 18%Z
        | adds_points 30%Z | adds_points 40%Z ].

Lemma scoreSF_contributes sf : contributes (scoreSF sf) 3 40.
Proof. unfold scoreSF. component. Qed.

Lemma scoreRR_contributes p : contributes (scoreRR p) 2 18.
Proof. unfold scoreRR. component. Qed.

Lemma scoreHR_contributes p : contributes (scoreHR p) 1 10.
Proof. unfold scoreHR. component. Qed.

Lemma scoreAge_contributes m : contributes (scoreAge m) 2 10.
Proof. unfold scoreAge. component. Qed.

Lemma scoreType_contributes a : contributes (scoreType a) 0 10.
Proof. unfold scoreType. component. Qed.

Lemma scoreDiag_contributes g : contributes (scoreDiag g) 0 12.
Proof. unfold scoreDiag. component. Qed.

Lemma scoreFiO2_contributes f : contributes (scoreFiO2 f) 0 8.
Proof. unfold scoreFiO2. component. Qed.

Lemma scorePrism_contributes p : contributes (scorePrism p) 0 10.
Proof. unfold scorePrism. component. Qed.

Lemma scoreIpap_contributes p : contributes (scoreIpap p) 0 6.
Proof. unfold scoreIpap. component. Qed.

Lemma scorePco2_contributes c : contributes (scorePco2 c) 0 6.
Proof. unfold scorePco2. component. Qed.

Lemma scorePh_contributes p0 p1 : contributes (scorePh p0 p1) 0 4.
Proof. unfold scorePh. component. Qed.

(** The bands that add their points without an entry: every HR band,
    the RR bands from a 10% decrease on, the age bands from 6 months on
    and SF of 260 or more. *)
Ltac silently c :=
  split;
  [ intros t k Hk Ht; cbn [running add]; rewrite Ht; adds_points c
  | intros t; cbn [factors add]; rewrite app_nil_r; reflexivity ].

Lemma scoreHR_band_10 (p : float) :
  (0 <=? p) = true -> silent (scoreHR (Some p)) 10.
Proof. intros H. unfold scoreHR. rewrite H. silently 10%Z. Qed.

Lemma scoreHR_band_7 (p : float) :
  (p <? 0) = true -> (-5 <? p) = true -> silent (scoreHR (Some p)) 7.
Proof.
  intros H1 H2. unfold scoreHR.
  rewrite (below_not_at_least 0 p H1), H2. silently 7%Z.
Qed.

Lemma scoreHR_band_4 (p : float) :
  (p <=? -5) = true -> (-10 <? p) = true -> silent (scoreHR (Some p)) 4.
Proof.
  intros H1 H2. unfold scoreHR.
  rewrite (not_at_least (-5) 0 p H1 eq_refl),
    (not_above (-5) (-5) p H1 eq_refl), H2.
  silently 4%Z.
Qed.

Lemma scoreHR_band_1 (p : float) :
  (p <=? -10) = true -> silent (scoreHR (Some p)) 1.
Proof.
  intros H. unfold scoreHR.
  rewrite (not_at_least (-10) 0 p H eq_refl),
    (not_above (-10) (-5) p H eq_refl), (not_above (-10) (-10) p H eq_refl).
  silently 1%Z.
Qed.

Lemma scoreRR_band_7 (p : float) :
  (p <=? -10) = true -> (-20 <? p) = true -> silent (scoreRR (Some p)) 7.
Proof.
  intros H1 H2. unfold scoreRR.
  rewrite (not_at_least (-10) 0 p H1 eq_refl),
    (not_above (-10) (-10) p H1 eq_refl), H2.
  silently 7%Z.
Qed.

Lemma scoreRR_band_2 (p : float) :
  (p <=? -20) = true -> silent (scoreRR (Some p)) 2.
Proof.
  intros H. unfold scoreRR.
  rewrite (not_at_least (-20) 0 p H eq_refl),
    (not_above (-20) (-10) p H eq_refl), (not_above (-20) (-20) p H eq_refl).
  silently 2%Z.
Qed.

Lemma scoreAge_band_6 (m : float) :
  (6 <=? m) = true -> (m <? 12) = true -> silent (scoreAge (Some m)) 6.
Proof.
  intros H1 H2. unfold scoreAge.
  rewrite (not_below 6 6 m H1 eq_refl), H2. silently 6%Z.
Qed.

Lemma scoreAge_band_2 (m : float) :
  (12 <=? m) = true -> silent (scoreAge (Some m)) 2.
Proof.
  intros H. unfold scoreAge.
  rewrite (not_below 12 6 m H eq_refl), (not_below 12 12 m H eq_refl).
  silently 2%Z.
Qed.

Lemma scoreSF_band_3 (sf : float) :
  (260 <=? sf) = true -> silent (scoreSF (Some sf)) 3.
Proof.
  intros H. unfold scoreSF.
  rewrite (not_below 260 150 sf H eq_refl), (not_below 260 193 sf H eq_refl),
    (not_below 260 220 sf H eq_refl), (not_below 260 260 sf H eq_refl).
  silently 3%Z.
Qed.

(** One more component on a tally whose score lies in a known range. *)
Lemma between_step (step : tally -> tally) (lo hi a b : Z) (t : tally) :
  contributes step lo hi -> between a b (running t) ->
  (0 <= a)%Z -> (b <= 150)%Z ->
  between (a + lo) (b + hi) (running (step t)).
Proof.
  intros Hs (k & Hk & E) Ha Hb.
  destruct (Hs t k ltac:(lia) E) as (c & Hc & E').
  exists (k + c)%Z. split; [lia | exact E'].
Qed.

(** The nine components together add between 8 and 134 points. *)
Lemma tallied_between (d : snapshot) : between 8 134 (running (tallied d)).
Proof.
  unfold tallied.
  apply (between_step _ 0 4 8 130); [apply scorePh_contributes | | lia ..].
  apply (between_step _ 0 6 8 124); [apply scorePco2_contributes | | lia ..].
  apply (between_step _ 0 6 8 118); [apply scoreIpap_contributes | | lia ..].
  apply (between_step _ 0 10 8 108); [apply scorePrism_contributes | | lia ..].
  apply (between_step _ 0 8 8 100); [apply scoreFiO2_contributes | | lia ..].
  apply (between_step _ 0 12 8 88); [apply scoreDiag_contributes | | lia ..].
  apply (between_step _ 0 10 8 78); [apply scoreType_contributes | | lia ..].
  apply (between_step _ 2 10 6 68); [apply scoreAge_contributes | | lia ..].
  apply (between_step _ 1 10 5 58); [apply scoreHR_contributes | | lia ..].
  apply (between_step _ 2 18 3 40); [apply scoreRR_contributes | | lia ..].
  apply (between_step _ 3 40 0 0); [apply scoreSF_contributes | | lia ..].
  exists 0%Z. split; [lia | reflexivity].
Qed.

Lemma overridden_running (d : snapshot) :
  running (overridden d)
  = if redFlags d then Math_max (running (tallied d)) 85
    else running (tallied d).
Proof. unfold overridden, overrideRedFlags. destruct (redFlags d); reflexivity. Qed.

Lemma overridden_between (d : snapshot) :
  between (if redFlags d then 85 else 8) 134 (running (overridden d)).
Proof.
  rewrite overridden_running.
  destruct (tallied_between d) as (k & Hk & E).
  destruct (redFlags d).
  - exists (Z.max k 85). split; [lia|]. rewrite E. apply whole_max_85. lia.
  - exists k. split; [lia | exact E].
Qed.

Lemma computeRisk_score (d : snapshot) :
  score (computeRisk d) = clamp (Math_round (running (overridden d))) 0 100.
Proof. reflexivity. Qed.

Lemma score_between (d : snapshot) :
  between (if redFlags d then 85 else 8) 100 (score (computeRisk d)).
Proof.
  rewrite computeRisk_score.
  destruct (overridden_between d) as (k & Hk & E).
  exists (Z.min k 100). split.
  - destruct (redFlags d); lia.
  - rewrite E. apply whole_round_clamp. destruct (redFlags d); lia.
Qed.

(** ** The final score *)

Lemma any_red_flag (d : snapshot) :
  rfHemodyn d = true \/ rfGcs d = true \/ rfSecretions d = true
  \/ rfApnea d = true \/ rfPtx d = true ->
  redFlags d = true.
Proof.
  unfold redFlags, Boolean. cbn [existsb].
  intros [H | [H | [H | [H | H]]]]; rewrite H;
    repeat rewrite orb_true_r; reflexivity.
Qed.

(** Rounding and clamping on the integers, the quarters and the halves
    from -200 to 300: a half goes up, a quarter goes down, and what lies
    outside [0,100] is replaced by the nearer bound. *)
Lemma round_clamp_table (k : Z) :
  (-200 <= k <= 300)%Z ->
  clamp (Math_round (of_Z k)) 0 100 = of_Z (Z.max 0 (Z.min k 100))
  /\ clamp (Math_round (of_Z k + 0.25)) 0 100 = of_Z (Z.max 0 (Z.min k 100))
  /\ clamp (Math_round (of_Z k + 0.5)) 0 100
     = of_Z (Z.max 0 (Z.min (k + 1) 100)).
Proof.
  intros Hk.
  pose (test := fun i : Z =>
    let k := (i - 200)%Z in
    PrimFloat.Leibniz.eqb (clamp (Math_round (of_Z k)) 0 100)
      (of_Z (Z.max 0 (Z.min k 100)))
    && PrimFloat.Leibniz.eqb (clamp (Math_round (of_Z k + 0.25)) 0 100)
         (of_Z (Z.max 0 (Z.min k 100)))
    && PrimFloat.Leibniz.eqb (clamp (Math_round (of_Z k + 0.5)) 0 100)
         (of_Z (Z.max 0 (Z.min (k + 1) 100)))).
  assert (T : test (k + 200)%Z = true).
  { apply (upto_all 501 test); [vm_compute; reflexivity | lia]. }
  unfold test in T. cbv zeta in T.
  replace (k + 200 - 200)%Z with k in T by lia.
  apply andb_true_iff in T. destruct T as (T & T3).
  apply andb_true_iff in T. destruct T as (T1 & T2).
  repeat split; apply same_number; assumption.
Qed.

Lemma whole_round (k : Z) :
  (0 <= k <= 200)%Z -> Math_round (whole k) = whole k.
Proof.
  intros Hk. apply same_number.
  apply (upto_all 201 (fun k =>
           PrimFloat.Leibniz.eqb (Math_round (whole k)) (whole k))).
  - vm_compute. reflexivity.
  - lia.
Qed.

(** C2: for every snapshot the accumulated total is an integer [k] with
    [8 <= k <= 134], rounding leaves it as it is, and the final score is
    that integer cut to [0,100], which is [min(k, 100)]: an integer [j]
    with [0 <= j <= 100].  The cut is taken: the total 134 gives the
    score 100, and the total 49 the score 49.  What is applied to the
    total is [clamp(Math.round(total), 0, 100)], which on the integers,
    quarters and halves from -200 to 300 is the nearest integer, a half
    going up, replaced by 0 below 0 and by 100 above 100. *)
Theorem score_in_range (d : snapshot) :
  score (computeRisk d) = clamp (Math_round (running (overridden d))) 0 100
  /\ (exists k, (8 <= k <= 134)%Z
        /\ running (overridden d) = whole k
        /\ Math_round (running (overridden d)) = whole k
        /\ score (computeRisk d) = whole (Z.max 0 (Z.min k 100)))
  /\ (running (overridden severe) = 134 /\ score (computeRisk severe) = 100)
  /\ (running (overridden scenarioA) = 49
      /\ score (computeRisk scenarioA) = 49)
  /\ (forall k, (-200 <= k <= 300)%Z ->
        clamp (Math_round (of_Z k)) 0 100 = of_Z (Z.max 0 (Z.min k 100))
        /\ clamp (Math_round (of_Z k + 0.25)) 0 100
           = of_Z (Z.max 0 (Z.min k 100))
        /\ clamp (Math_round (of_Z k + 0.5)) 0 100
           = of_Z (Z.max 0 (Z.min (k + 1) 100)))
  /\ (exists j, (0 <= j <= 100)%Z /\ score (computeRisk d) = whole j)
  /\ (0 <=? score (computeRisk d)) = true
  /\ (score (computeRisk d) <=? 100) = true.
Proof.
  split; [reflexivity|].
  split.
  { destruct (overridden_between d) as (k & Hk & E).
    assert (Hk' : (8 <= k <= 134)%Z) by (destruct (redFlags d); lia).
    exists k. split; [exact Hk'|]. split; [exact E|].
    split; [rewrite E; apply whole_round; lia|].
    rewrite computeRisk_score, E, Z.max_r by lia.
    apply whole_round_clamp. lia. }
  split; [split; vm_compute; reflexivity|].
  split; [split; vm_compute; reflexivity|].
  split; [exact round_clamp_table|].
  destruct (score_between d) as (j & Hj & E).
  assert (Hj' : (0 <= j <= 100)%Z) by (destruct (redFlags d); lia).
  split; [exists j; auto|].
  rewrite E. split.
  - apply (whole_leb_true 0 j); lia.
  - apply (whole_leb_true j 100); lia.
Qed.

(** C1: when at least one red flag is set, the override replaces the
    running score by [max(score, 85)], a floor and not an assignment, and
    the final score is an integer of at least 85. *)
Theorem red_flags_floor (d : snapshot) :
  rfHemodyn d = true \/ rfGcs d = true \/ rfSecretions d = true
  \/ rfApnea d = true \/ rfPtx d = true ->
  running (overridden d) = Math_max (running (tallied d)) 85
  /\ (exists j, (85 <= j <= 100)%Z /\ score (computeRisk d) = whole j)
  /\ (85 <=? score (computeRisk d)) = true.
Proof.
  intros H. apply any_red_flag in H.
  pose proof (overridden_running d) as R.
  pose proof (score_between d) as (j & Hj & E).
  rewrite H in R, Hj.
  split; [exact R|]. split; [exists j; auto|].
  rewrite E. apply (whole_leb_true 85 j); lia.
Qed.

(** The red flag of [severe] leaves its total of 134 in place: the score
    is 100, the cap, and not 85.  The red flags of Scenario B lift its
    total of 23 to 85. *)
Lemma red_flags_floor_witness :
  (rfGcs severe = true
   /\ running (tallied severe) = 134
   /\ running (overridden severe) = Math_max (running (tallied severe)) 85
   /\ score (computeRisk severe) = 100
   /\ (85 <=? score (computeRisk severe)) = true)
  /\ (rfHemodyn scenarioB = true
      /\ running (tallied scenarioB) = 23
      /\ score (computeRisk scenarioB) = 85
      /\ (85 <=? score (computeRisk scenarioB)) = true).
Proof.
  split.
  - split; [reflexivity|].
    split; [vm_compute; reflexivity|].
    destruct (red_flags_floor severe) as (R & _ & L).
    + right; left; reflexivity.
    + split; [exact R|]. split; [vm_compute; reflexivity | exact L].
  - split; [reflexivity|].
    split; [vm_compute; reflexivity|].
    split; [vm_compute; reflexivity|].
    apply (red_flags_floor scenarioB). left; reflexivity.
Defined.

(** With nothing entered the four components that always score add
    their fallbacks, 10 + 6 + 3 + 4, and nothing is recorded. *)
Example blank_scores_23 :
  score (computeRisk blank) = 23 /\ topFactors (computeRisk blank) = [].
Proof. split; vm_compute; reflexivity. Qed.

(** C9: for every snapshot the final score is at least 8.  The four
    components that always score add at least 3 (SF), 2 (RR), 1 (HR) and
    2 (age) points, which are the points of their lowest bands: SF of
    260 or more, RR down by 20% or more, HR down by 10% or more, 12
    months or more.  [favourable] is in these four bands with nothing
    else entered and scores exactly 8. *)
Theorem score_at_least_8 (d : snapshot) :
  (exists j, (8 <= j <= 100)%Z /\ score (computeRisk d) = whole j)
  /\ (8 <=? score (computeRisk d)) = true
  /\ (forall sf, contributes (scoreSF sf) 3 40)
  /\ (forall p, contributes (scoreRR p) 2 18)
  /\ (forall p, contributes (scoreHR p) 1 10)
  /\ (forall m, contributes (scoreAge m) 2 10)
  /\ (forall sf, (260 <=? sf) = true -> contributes (scoreSF (Some sf)) 3 3)
  /\ (forall p, (p <=? -20) = true -> contributes (scoreRR (Some p)) 2 2)
  /\ (forall p, (p <=? -10) = true -> contributes (scoreHR (Some p)) 1 1)
  /\ (forall m, (12 <=? m) = true -> contributes (scoreAge (Some m)) 2 2)
  /\ score (computeRisk favourable) = 8.
Proof.
  destruct (score_between d) as (j & Hj & E).
  assert (Hj' : (8 <= j <= 100)%Z) by (destruct (redFlags d); lia).
  split; [exists j; auto|].
  split; [rewrite E; apply (whole_leb_true 8 j); lia|].
  split; [exact scoreSF_contributes|].
  split; [exact scoreRR_contributes|].
  split; [exact scoreHR_contributes|].
  split; [exact scoreAge_contributes|].
  split; [intros sf H; apply scoreSF_band_3, H|].
  split; [intros p H; apply scoreRR_band_2, H|].
  split; [intros p H; apply scoreHR_band_1, H|].
  split; [intros m H; apply scoreAge_band_2, H|].
  vm_compute. reflexivity.
Qed.

(** ** The derived metrics *)

(** C6: the oxygenation ratio is null exactly when the parsed saturation
    is null, the parsed oxygen fraction is null or the parsed oxygen
    fraction is at most 0; otherwise it is the saturation divided by the
    oxygen fraction, which [parseFiO2] has turned into a decimal (a value
    above 1 and up to 100 is a percentage and is divided by 100).  Both
    functions are total: no input raises an exception. *)
Theorem calcSF_spec (spo2 fio2 : value) :
  (calcSF spo2 fio2 = None <->
     safeNum spo2 = None \/ parseFiO2 fio2 = None
     \/ exists f, parseFiO2 fio2 = Some f /\ (f <=? 0) = true)
  /\ (forall s f, safeNum spo2 = Some s -> parseFiO2 fio2 = Some f ->
        (f <=? 0) = false -> calcSF spo2 fio2 = Some (s / f))
  /\ (parseFiO2 fio2 = None <-> safeNum fio2 = None)
  /\ (forall n, safeNum fio2 = Some n ->
        parseFiO2 fio2
        = Some (if (1 <? n) && (n <=? 100) then n / 100 else n)).
Proof.
  assert (P : forall n, safeNum fio2 = Some n ->
            parseFiO2 fio2
            = Some (if (1 <? n) && (n <=? 100) then n / 100 else n)).
  { intros n H. unfold parseFiO2. rewrite H.
    destruct ((1 <? n) && (n <=? 100)); reflexivity. }
  split; [|split; [|split]].
  - unfold calcSF.
    destruct (safeNum spo2) as [s|]; [|split; auto].
    destruct (parseFiO2 fio2) as [f|]; [|split; auto].
    destruct (f <=? 0) eqn:L; split; try discriminate; try reflexivity.
    + intros _. right; right. exists f. auto.
    + intros [H | [H | (f' & [= <-] & H)]]; congruence.
  - intros s f Hs Hf L. unfold calcSF. rewrite Hs, Hf, L. reflexivity.
  - destruct (safeNum fio2) as [n|] eqn:E.
    + rewrite (P n eq_refl). split; discriminate.
    + unfold parseFiO2. rewrite E. split; reflexivity.
  - exact P.
Qed.

(** Saturation 90 on 60% oxygen is a ratio of 150; an oxygen fraction of
    0, or no saturation, gives null; "40" and "0.4" are the same oxygen
    fraction. *)
Lemma calcSF_spec_witness :
  calcSF (Text "90") (Text "60") = Some (90 / 0.6)
  /\ calcSF (Text "90") (Text "0") = None
  /\ calcSF Null (Text "60") = None
  /\ parseFiO2 (Text "40") = Some 0.4
  /\ parseFiO2 (Text "0.4") = Some 0.4.
Proof.
  split.
  - apply (calcSF_spec (Text "90") (Text "60")); vm_compute; reflexivity.
  - split.
    + apply (calcSF_spec (Text "90") (Text "0")). right; right.
      exists 0. split; vm_compute; reflexivity.
    + split.
      * apply (calcSF_spec Null (Text "60")). left. reflexivity.
      * split; vm_compute; reflexivity.
Defined.

Lemma computeRisk_drrPct (d : snapshot) :
  drrPct (computeRisk d) = pctChange (rr_1 d) (rr_0 d).
Proof.
  cbn [computeRisk drrPct]. unfold pctChange.
  destruct (safeNum (rr_1 d)), (safeNum (rr_0 d)); reflexivity.
Qed.

Lemma computeRisk_dhrPct (d : snapshot) :
  dhrPct (computeRisk d) = pctChange (hr_1 d) (hr_0 d).
Proof.
  cbn [computeRisk dhrPct]. unfold pctChange.
  destruct (safeNum (hr_1 d)), (safeNum (hr_0 d)); reflexivity.
Qed.

Lemma scoreRR_no_improvement (p : float) :
  (0 <=? p) = true ->
  contributes (scoreRR (Some p)) 18 18
  /\ records (scoreRR (Some p)) [entry 18 "FR não melhorou / piorou"].
Proof.
  intros H. unfold scoreRR. rewrite H. split.
  - intros t k Hk Ht. cbn [running add addFactor]. rewrite Ht.
    adds_points 18%Z.
  - intros t. reflexivity.
Qed.

(** C7: the percent change is null exactly when one of the operands
    parses to null or the old one parses to 0; otherwise it is
    [(new - old) / old * 100].  When both parse to the same number other
    than 0 it is 0, which is in the RR band [>= 0]: 18 points.  The RR
    and HR changes of an assessment are these percent changes. *)
Theorem pctChange_spec (newV oldV : value) :
  (pctChange newV oldV = None <->
     safeNum newV = None \/ safeNum oldV = None
     \/ exists b, safeNum oldV = Some b /\ (b =? 0) = true)
  /\ (forall a b, safeNum newV = Some a -> safeNum oldV = Some b ->
        (b =? 0) = false ->
        pctChange newV oldV = Some ((a - b) / b * 100))
  /\ (forall a, safeNum newV = Some a -> safeNum oldV = Some a ->
        (a =? 0) = false ->
        exists p, pctChange newV oldV = Some p
          /\ (p =? 0) = true /\ (0 <=? p) = true
          /\ contributes (scoreRR (Some p)) 18 18)
  /\ (forall d, drrPct (computeRisk d) = pctChange (rr_1 d) (rr_0 d)
                /\ dhrPct (computeRisk d) = pctChange (hr_1 d) (hr_0 d)).
Proof.
  split; [|split; [|split]].
  - unfold pctChange.
    destruct (safeNum newV) as [a|]; [|split; auto].
    destruct (safeNum oldV) as [b|]; [|split; auto].
    destruct (b =? 0) eqn:Z; split; try discriminate; try reflexivity.
    + intros _. right; right. eauto.
    + intros [H | [H | (f & [= <-] & H)]]; congruence.
  - intros a b Ha Hb Z. unfold pctChange. rewrite Ha, Hb, Z. reflexivity.
  - intros a Ha Hb Z. exists ((a - a) / a * 100).
    destruct (unchanged_is_zero a (safeNum_finite _ _ Ha) Z) as (E & L).
    split; [unfold pctChange; rewrite Ha, Hb, Z; reflexivity|].
    split; [exact E|]. split; [exact L|].
    apply scoreRR_no_improvement, L.
  - intros d. split; [apply computeRisk_drrPct | apply computeRisk_dhrPct].
Qed.

(** Respiratory rate 40 before and after: the change is 0 and the RR
    component adds 18 points. *)
Lemma pctChange_spec_witness :
  pctChange (Text "40") (Text "40") = Some 0
  /\ exists p, pctChange (Text "40") (Text "40") = Some p
       /\ (p =? 0) = true /\ (0 <=? p) = true
       /\ contributes (scoreRR (Some p)) 18 18.
Proof.
  split; [vm_compute; reflexivity|].
  destruct (pctChange_spec (Text "40") (Text "40")) as (_ & _ & H & _).
  apply (H 40); vm_compute; reflexivity.
Defined.

(** ** The operational criteria *)

(** C8: two snapshots that differ only in the four operational-criteria
    flags have the same score, tier, badge and factor list, and the same
    derived values, summary and brief: of the whole assessment only
    [explain] and [actions] read the flags. *)
Theorem criteria_do_not_score (d d' : snapshot) :
  differOnlyInCriteria d d' ->
  let out := computeRisk d in
  let out' := computeRisk d' in
  score out' = score out /\ tier out' = tier out /\ badge out' = badge out
  /\ factors (overridden d') = factors (overridden d)
  /\ topFactors out' = topFactors out
  /\ sf0 out' = sf0 out /\ sf1 out' = sf1 out
  /\ drrPct out' = drrPct out /\ dhrPct out' = dhrPct out
  /\ dpco2 out' = dpco2 out /\ oxyCtx out' = oxyCtx out
  /\ summary out' = summary out /\ brief out' = brief out.
Proof.
  unfold differOnlyInCriteria. intros ->.
  repeat split; reflexivity.
Qed.

(** [severe] without its operational criterion: the same score and
    factors, another explanation and other actions. *)
Lemma criteria_do_not_score_witness :
  let d' := withCriteria severe false false false false in
  differOnlyInCriteria severe d'
  /\ score (computeRisk d') = score (computeRisk severe)
  /\ topFactors (computeRisk d') = topFactors (computeRisk severe)
  /\ explain (computeRisk d') <> explain (computeRisk severe)
  /\ actions (computeRisk d') <> actions (computeRisk severe).
Proof.
  assert (H : differOnlyInCriteria severe
                (withCriteria severe false false false false))
    by reflexivity.
  pose proof (criteria_do_not_score _ _ H) as T. cbv zeta in T.
  split; [exact H|]. split; [apply T|]. split; [apply T|].
  split; intros E; vm_compute in E; discriminate E.
Defined.

(** ** The factor list *)

Ltac recording :=
  intros t;
  repeat match goal with
         | |- context [match ?x with Some _ => _ | None => _ end] => destruct x
         | |- context [if ?b then _ else _] => destruct b
         end;
  cbn [factors add addFactor]; rewrite ?app_nil_r; reflexivity.

Lemma scoreSF_records sf : records (scoreSF sf) (sfEntries sf).
Proof. unfold scoreSF, sfEntries. recording. Qed.

Lemma scoreRR_records p : records (scoreRR p) (rrEntries p).
Proof. unfold scoreRR, rrEntries, atLeast, above. recording. Qed.

Lemma scoreHR_records p : records (scoreHR p) [].
Proof. unfold scoreHR. recording. Qed.

Lemma scoreAge_records m : records (scoreAge m) (ageEntries m).
Proof. unfold scoreAge, ageEntries, below. recording. Qed.

Lemma scoreType_records a : records (scoreType a) (typeEntries a).
Proof. unfold scoreType, typeEntries. recording. Qed.

Lemma scoreDiag_records g : records (scoreDiag g) (diagEntries g).
Proof. unfold scoreDiag, diagEntries. recording. Qed.

Lemma scoreFiO2_records f : records (scoreFiO2 f) [].
Proof. unfold scoreFiO2. recording. Qed.

Lemma scorePrism_records p : records (scorePrism p) [].
Proof. unfold scorePrism. recording. Qed.

Lemma scoreIpap_records p : records (scoreIpap p) [].
Proof. unfold scoreIpap. recording. Qed.

Lemma scorePco2_records c : records (scorePco2 c) [].
Proof. unfold scorePco2. recording. Qed.

Lemma scorePh_records p0 p1 : records (scorePh p0 p1) [].
Proof. unfold scorePh. recording. Qed.

Lemma overrideRedFlags_records r : records (overrideRedFlags r) (redEntries r).
Proof. unfold overrideRedFlags, redEntries. recording. Qed.

Lemma tallied_factors (d : snapshot) :
  factors (tallied d)
  = labelled (sf1 (computeRisk d)) (drrPct (computeRisk d))
      (toMonths (ageValue d) (ageUnit d)) (arfType d) (diag d) false.
Proof.
  unfold tallied, labelled. cbv zeta.
  rewrite scorePh_records, scorePco2_records, scoreIpap_records,
    scorePrism_records, scoreFiO2_records, scoreDiag_records,
    scoreType_records, scoreAge_records, scoreHR_records,
    scoreRR_records, scoreSF_records.
  cbn [factors redEntries]. rewrite !app_nil_r, <- !app_assoc. reflexivity.
Qed.

Lemma overridden_factors (d : snapshot) :
  factors (overridden d)
  = labelled (sf1 (computeRisk d)) (drrPct (computeRisk d))
      (toMonths (ageValue d) (ageUnit d)) (arfType d) (diag d) (redFlags d).
Proof.
  unfold overridden. rewrite overrideRedFlags_records, tallied_factors.
  unfold labelled. cbn [redEntries]. rewrite !app_nil_r, <- !app_assoc.
  reflexivity.
Qed.

Lemma computeRisk_topFactors (d : snapshot) :
  topFactors (computeRisk d)
  = map label
      (firstn 3 (Array_sort (fun a b => w b - w a) (factors (overridden d)))).
Proof. reflexivity. Qed.

(** C4: the labelled entries are exactly those of [labelled]: one for
    the SF bands below 260, for the RR bands [>= 0] and [> -10], for age
    below 6 months, for the hypoxemic type, for ARDS, for pneumonia and
    for the red flags, each with its weight; [topFactors] is read from
    that list.  The other bands add their points without an entry: the
    four HR bands (10, 7, 4, 1), the RR bands [> -20] (7) and [<= -20]
    (2), the age bands [< 12] (6) and [>= 12] (2) and SF of 260 or more
    (3); the unknown values and the optional components record nothing
    either. *)
Theorem factors_recorded (d : snapshot) :
  let out := computeRisk d in
  factors (overridden d)
  = labelled (sf1 out) (drrPct out) (toMonths (ageValue d) (ageUnit d))
      (arfType d) (diag d) (redFlags d)
  /\ topFactors out
     = map label
         (firstn 3
            (Array_sort (fun a b => w b - w a) (factors (overridden d))))
  /\ (forall p, records (scoreHR p) [])
  /\ (forall p, (0 <=? p) = true -> silent (scoreHR (Some p)) 10)
  /\ (forall p, (p <? 0) = true -> (-5 <? p) = true ->
        silent (scoreHR (Some p)) 7)
  /\ (forall p, (p <=? -5) = true -> (-10 <? p) = true ->
        silent (scoreHR (Some p)) 4)
  /\ (forall p, (p <=? -10) = true -> silent (scoreHR (Some p)) 1)
  /\ (forall p, (p <=? -10) = true -> (-20 <? p) = true ->
        silent (scoreRR (Some p)) 7)
  /\ (forall p, (p <=? -20) = true -> silent (scoreRR (Some p)) 2)
  /\ (forall m, (6 <=? m) = true -> (m <? 12) = true ->
        silent (scoreAge (Some m)) 6)
  /\ (forall m, (12 <=? m) = true -> silent (scoreAge (Some m)) 2)
  /\ (forall sf, (260 <=? sf) = true -> silent (scoreSF (Some sf)) 3)
  /\ records (scoreSF None) [] /\ records (scoreRR None) []
  /\ records (scoreAge None) []
  /\ (forall f, records (scoreFiO2 f) [])
  /\ (forall p, records (scorePrism p) [])
  /\ (forall p, records (scoreIpap p) [])
  /\ (forall c, records (scorePco2 c) [])
  /\ (forall p0 p1, records (scorePh p0 p1) []).
Proof.
  cbv zeta.
  split; [apply overridden_factors|].
  split; [reflexivity|].
  split; [exact scoreHR_records|].
  split; [exact scoreHR_band_10|].
  split; [exact scoreHR_band_7|].
  split; [exact scoreHR_band_4|].
  split; [exact scoreHR_band_1|].
  split; [exact scoreRR_band_7|].
  split; [exact scoreRR_band_2|].
  split; [exact scoreAge_band_6|].
  split; [exact scoreAge_band_2|].
  split; [exact scoreSF_band_3|].
  split; [exact (scoreSF_records None)|].
  split; [exact (scoreRR_records None)|].
  split; [exact (scoreAge_records None)|].
  split; [exact scoreFiO2_records|].
  split; [exact scorePrism_records|].
  split; [exact scoreIpap_records|].
  split; [exact scorePco2_records|].
  exact scorePh_records.
Qed.

(** In [unlabelled] the HR band [>= 0] adds its 10 points, the RR band
    [> -20] its 7 and the age band [< 12] its 6, and the factor list is
    empty. *)
Lemma unlabelled_bands :
  dhrPct (computeRisk unlabelled) = Some 0
  /\ running (scoreHR (Some 0) {| running := 0; factors := [] |}) = 10
  /\ drrPct (computeRisk unlabelled) = Some (-15)
  /\ running (scoreRR (Some (-15)) {| running := 0; factors := [] |}) = 7
  /\ toMonths (ageValue unlabelled) (ageUnit unlabelled) = Some 8
  /\ running (scoreAge (Some 8) {| running := 0; factors := [] |}) = 6
  /\ factors (overridden unlabelled) = []
  /\ topFactors (computeRisk unlabelled) = [].
Proof. repeat split; vm_compute; reflexivity. Qed.

(** ** Scenario A *)

(** At saturation 90 on 60% oxygen the ratio is 150, which is not below
    150: the SF component is not in the band [< 150] and does not add 40
    points. *)
Lemma scenarioA_not_below_150 :
  sf1 (computeRisk scenarioA) = Some 150
  /\ (150 <? 150) = false
  /\ running (scoreSF (sf1 (computeRisk scenarioA))
                {| running := 0; factors := [] |}) <> 40.
Proof.
  split; [vm_compute; reflexivity|].
  split; [reflexivity|].
  apply different_number. vm_compute. reflexivity.
Qed.

(** C3: in Scenario A the inputs parse to 90 and 0.6, the 1–2 h ratio
    is exactly 150, which falls in the band [< 193]: that component adds
    30 points and records its entry.  With the unknown RR (6) and HR (3)
    and the age below 6 months (10) the score is 49, tier "Intermédio". *)
Theorem scenarioA_sf_band :
  safeNum (spo2_1 scenarioA) = Some 90
  /\ parseFiO2 (fio2_1 scenarioA) = Some 0.6
  /\ sf1 (computeRisk scenarioA) = Some 150
  /\ (150 <? 150) = false /\ (150 <? 193) = true
  /\ contributes (scoreSF (sf1 (computeRisk scenarioA))) 30 30
  /\ records (scoreSF (sf1 (computeRisk scenarioA)))
       [entry 30 "SF 1–2 h < 193 (SF=150)"]
  /\ score (computeRisk scenarioA) = 49
  /\ tier (computeRisk scenarioA) = "Intermédio".
Proof.
  assert (E : sf1 (computeRisk scenarioA) = Some 150)
    by (vm_compute; reflexivity).
  assert (S : forall t, scoreSF (Some 150) t
               = addFactor 30 "SF 1–2 h < 193 (SF=150)" (add 30 t)).
  { intros t. unfold scoreSF.
    change (150 <? 150) with false. change (150 <? 193) with true.
    cbv iota. reflexivity. }
  split; [vm_compute; reflexivity|].
  split; [vm_compute; reflexivity|].
  split; [exact E|].
  split; [reflexivity|]. split; [reflexivity|].
  rewrite E.
  split; [|split; [|split]].
  - intros t k Hk Ht. rewrite S. cbn [running add addFactor]. rewrite Ht.
    adds_points 30%Z.
  - intros t. rewrite S. reflexivity.
  - vm_compute. reflexivity.
  - vm_compute. reflexivity.
Qed.

(** ** Tiers *)

Lemma tiering_whole (j : Z) :
  (0 <= j <= 100)%Z -> tiering (whole j) = classify j.
Proof.
  intros Hj. unfold tiering, classify.
  change 85 with (whole 85). change 65 with (whole 65).
  change 45 with (whole 45).
  rewrite !whole_leb by lia. reflexivity.
Qed.

(** [severe] scores 100 and is given the tier "Muito alto" and the badge
    "ALTO RISCO", not the names "Very High" and "HIGH RISK". *)
Lemma tier_names_differ :
  score (computeRisk severe) = 100
  /\ tier (computeRisk severe) = "Muito alto"
  /\ badge (computeRisk severe) = "ALTO RISCO"
  /\ (tier (computeRisk severe), badge (computeRisk severe))
     <> classifyNamed 100.
Proof.
  split; [vm_compute; reflexivity|].
  split; [vm_compute; reflexivity|].
  split; [vm_compute; reflexivity|].
  intros E. vm_compute in E. discriminate E.
Qed.

(** C5: tier and badge are a function of the final score alone, the
    first match from high to low: an integer score [j] of 85 or more is
    "Muito alto" / "ALTO RISCO", 65 to 84 is "Alto" / "RISCO ↑", 45 to 64
    is "Intermédio" / "RISCO ↔" and below 45 is "Baixo" / "RISCO ↓"; the
    four ranges cover 0 to 100 and no two of them meet, and [tiering]
    follows them on every integer from 0 to 100. *)
Theorem tier_partition (d : snapshot) :
  let out := computeRisk d in
  (tier out, badge out) = tiering (score out)
  /\ exists j, (0 <= j <= 100)%Z /\ score out = whole j
     /\ ((85 <= j)%Z -> tier out = "Muito alto" /\ badge out = "ALTO RISCO")
     /\ ((65 <= j < 85)%Z -> tier out = "Alto" /\ badge out = "RISCO ↑")
     /\ ((45 <= j < 65)%Z -> tier out = "Intermédio" /\ badge out = "RISCO ↔")
     /\ ((j < 45)%Z -> tier out = "Baixo" /\ badge out = "RISCO ↓")
     /\ (forall i, (0 <= i <= 100)%Z -> tiering (whole i) = classify i).
Proof.
  cbv zeta.
  assert (T : (tier (computeRisk d), badge (computeRisk d))
              = tiering (score (computeRisk d))).
  { change (tier (computeRisk d))
      with (fst (tiering (score (computeRisk d)))).
    change (badge (computeRisk d))
      with (snd (tiering (score (computeRisk d)))).
    symmetry. apply surjective_pairing. }
  split; [exact T|].
  destruct (score_between d) as (j & Hj' & E).
  assert (Hj : (0 <= j <= 100)%Z) by (destruct (redFlags d); lia).
  clear Hj'.
  exists j. split; [exact Hj|]. split; [exact E|].
  rewrite E, (tiering_whole j Hj) in T. clear E.
  generalize dependent (tier (computeRisk d)).
  generalize dependent (badge (computeRisk d)).
  intros bd tr T. unfold classify in T.
  destruct (Z.leb_spec 85 j); [|destruct (Z.leb_spec 65 j);
    [|destruct (Z.leb_spec 45 j)]];
    injection T as -> ->;
    (split; [|split; [|split; [|split]]]);
    try exact tiering_whole; intros R; try lia; split; reflexivity.
Qed.

(** ** Ranking *)

(** An element that the comparison orders strictly before all others
    comes out of the sort in front, wherever it was. *)
Lemma sort_moves_last_first {A : Type} (cmp : A -> A -> float)
    (l : list A) (x : A) :
  (forall y, In y l -> (0 <? cmp y x) = true) ->
  Array_sort cmp (l ++ [x]) = x :: Array_sort cmp l.
Proof.
  unfold Array_sort. rewrite fold_right_app. cbn [fold_right insert].
  induction l as [|y l IH]; intros H; cbn [fold_right].
  - reflexivity.
  - rewrite IH by (intros z Hz; apply H; right; exact Hz).
    cbn [insert]. rewrite (H y) by (left; reflexivity). reflexivity.
Qed.

(** The weights recorded by the score components are 8, 10, 12, 18, 30
    or 40. *)
Lemma labelled_weights (sf drr age : option float) (a g : string)
    (f : factor) :
  In f (labelled sf drr age a g false) ->
  exists k, (8 <= k <= 40)%Z /\ w f = whole k.
Proof.
  unfold labelled, sfEntries, rrEntries, ageEntries, typeEntries,
    diagEntries, redEntries.
  rewrite !in_app_iff.
  intros H.
  repeat match type of H with
         | _ \/ _ => destruct H as [H | H]
         | context [match ?x with Some _ => _ | None => _ end] => destruct x
         | context [if ?b then _ else _] => destruct b
         | In _ [] => destruct H
         | In _ [_] => destruct H as [<- | []]
         end;
    cbn [w entry];
    first [ exists 8%Z; split; [lia | reflexivity]
          | exists 10%Z; split; [lia | reflexivity]
          | exists 12%Z; split; [lia | reflexivity]
          | exists 18%Z; split; [lia | reflexivity]
          | exists 30%Z; split; [lia | reflexivity]
          | exists 40%Z; split; [lia | reflexivity] ].
Qed.

Lemma below_50 (k : Z) : (0 <= k <= 40)%Z -> (0 <? 50 - whole k) = true.
Proof.
  intros Hk.
  apply (upto_all 41 (fun k => 0 <? 50 - whole k)).
  - vm_compute. reflexivity.
  - lia.
Qed.

(** C10: when a red flag is set the entry "Red flags clínicas" of weight
    50 is recorded after the entries of the score components, whose
    weights are at most 40, and it is the first of the top factors. *)
Theorem red_flags_ranked_first (d : snapshot) :
  rfHemodyn d = true \/ rfGcs d = true \/ rfSecretions d = true
  \/ rfApnea d = true \/ rfPtx d = true ->
  factors (overridden d)
  = factors (tallied d) ++ [{| w := 50; label := "Red flags clínicas" |}]
  /\ (forall f, In f (factors (tallied d)) ->
        exists k, (8 <= k <= 40)%Z /\ w f = whole k)
  /\ hd_error (topFactors (computeRisk d)) = Some "Red flags clínicas".
Proof.
  intros H. apply any_red_flag in H.
  assert (F : factors (overridden d)
              = factors (tallied d)
                ++ [{| w := 50; label := "Red flags clínicas" |}]).
  { unfold overridden. rewrite overrideRedFlags_records, H. reflexivity. }
  assert (W : forall f, In f (factors (tallied d)) ->
                exists k, (8 <= k <= 40)%Z /\ w f = whole k).
  { intros f. rewrite tallied_factors. apply labelled_weights. }
  split; [exact F|]. split; [exact W|].
  rewrite computeRisk_topFactors, F, sort_moves_last_first.
  - reflexivity.
  - intros y Hy. destruct (W y Hy) as (k & Hk & ->). cbn [w].
    apply below_50. lia.
Qed.

(** [severe] has the red flag [rfGcs]: its top factors start with the
    red-flag entry, ahead of the SF entry of weight 40. *)
Lemma red_flags_ranked_first_witness :
  rfGcs severe = true
  /\ hd_error (topFactors (computeRisk severe)) = Some "Red flags clínicas"
  /\ topFactors (computeRisk severe)
     = ["Red flags clínicas"; "SF 1–2 h < 150 (SF=130)";
        "FR não melhorou / piorou"].
Proof.
  split; [reflexivity|].
  split.
  - apply (red_flags_ranked_first severe). right; left; reflexivity.
  - vm_compute. reflexivity.
Defined.

(** * Further properties *)

(** ** No derived metric is NaN *)

Lemma shr_1_nonneg (mrs : shr_record) :
  (0 <= shr_m mrs)%Z -> (0 <= shr_m (shr_1 mrs))%Z.
Proof.
  destruct mrs as [m r s]. cbn [shr_m].
  destruct m as [|[p|p|]|[p|p|]]; cbn; lia.
Qed.

Lemma iter_shr_1_nonneg (p : positive) (mrs : shr_record) :
  (0 <= shr_m mrs)%Z -> (0 <= shr_m (iter_pos shr_1 p mrs))%Z.
Proof.
  revert mrs. induction p as [p IH|p IH|]; intros mrs H; cbn [iter_pos].
  - apply IH, IH, shr_1_nonneg, H.
  - apply IH, IH, H.
  - apply shr_1_nonneg, H.
Qed.

Lemma shr_fexp_nonneg (m e : Z) (l : location) :
  (0 <= m)%Z -> (0 <= shr_m (fst (shr_fexp prec emax m e l)))%Z.
Proof.
  intros H. unfold shr_fexp, shr.
  assert (S : (0 <= shr_m (shr_record_of_loc m l))%Z)
    by (destruct l as [|[]]; exact H).
  destruct (fexp prec emax (Zdigits2 m + e) - e)%Z; cbn [fst]; auto.
  apply iter_shr_1_nonneg, S.
Qed.

Lemma round_nearest_even_nonneg (m : Z) (l : location) :
  (0 <= m)%Z -> (0 <= round_nearest_even m l)%Z.
Proof.
  intros H. destruct l as [|[]]; cbn; try lia. destruct (Z.even m); lia.
Qed.

(** Rounding a mantissa that is not negative never gives NaN. *)
Lemma binary_round_aux_number (s : bool) (m e : Z) (l : location) :
  (0 <= m)%Z -> binary_round_aux prec emax s m e l <> S754_nan.
Proof.
  intros H. unfold binary_round_aux.
  pose proof (shr_fexp_nonneg m e l H) as H1.
  destruct (shr_fexp prec emax m e l) as [mrs' e']. cbn [fst] in H1.
  pose proof (shr_fexp_nonneg _ e' loc_Exact
                (round_nearest_even_nonneg _ (loc_of_shr_record mrs') H1)) as H2.
  destruct (shr_fexp prec emax _ e' loc_Exact) as [mrs'' e''].
  cbn [fst] in H2.
  destruct (shr_m mrs'') as [|p|p]; try lia; try discriminate.
  destruct (e'' <=? emax - prec)%Z; discriminate.
Qed.

Lemma binary_normalize_number (m e : Z) (sz : bool) :
  binary_normalize prec emax m e sz <> S754_nan.
Proof.
  unfold binary_normalize, binary_round.
  destruct m as [|p|p]; try discriminate;
    destruct (shl_align p e _) as [mz ez];
    apply binary_round_aux_number; lia.
Qed.

Lemma SFsub_number (x y : spec_float) :
  finiteNumber x -> finiteNumber y -> SF64sub x y <> S754_nan.
Proof.
  unfold SF64sub, SFsub.
  destruct x as [[]|[]| |sx mx ex], y as [[]|[]| |sy my ey]; cbn;
    try tauto; try discriminate.
  intros _ _. apply binary_normalize_number.
Qed.

Lemma SFdiv_core_number (s : bool) (mx my : positive) (ex ey : Z) :
  SF64div (S754_finite s mx ex) (S754_finite false my ey) <> S754_nan
  /\ SF64div (S754_finite s mx ex) (S754_finite true my ey) <> S754_nan.
Proof.
  unfold SF64div, SFdiv, SFdiv_core_binary.
  destruct (Z.div_eucl _ (Z.pos my)) as [q r] eqn:E.
  assert (Q : (0 <= q)%Z).
  { match type of E with
    | Z.div_eucl ?a ?b = _ =>
        assert (Ha : (0 <= a)%Z);
        [| pose proof (Z.div_pos a b Ha ltac:(lia)) as D;
           unfold Z.div in D; rewrite E in D; exact D ]
    end.
    destruct (_ - _ - _)%Z; try lia. apply Z.shiftl_nonneg. lia. }
  split; apply binary_round_aux_number, Q.
Qed.

(** A quotient is a number when the divisor is finite and not zero, and
    also when the dividend is finite and the divisor is not zero. *)
Lemma SFdiv_number (x y : spec_float) :
  x <> S754_nan -> finiteNumber y -> nonzeroNumber y ->
  SF64div x y <> S754_nan.
Proof.
  destruct x as [sx|sx| |sx mx ex], y as [sy|sy| |[] my ey]; cbn;
    try tauto; try discriminate; intros _ _ _;
    apply SFdiv_core_number.
Qed.

Lemma SFdiv_finite_number (x y : spec_float) :
  finiteNumber x -> nonzeroNumber y -> SF64div x y <> S754_nan.
Proof.
  destruct x as [sx|sx| |sx mx ex], y as [sy|sy| |[] my ey]; cbn;
    try tauto; try discriminate; intros _ _;
    apply SFdiv_core_number.
Qed.

Lemma SFmul_number (x y : spec_float) :
  x <> S754_nan -> finiteNumber y -> nonzeroNumber y ->
  SF64mul x y <> S754_nan.
Proof.
  unfold SF64mul, SFmul.
  destruct x as [sx|sx| |sx mx ex], y as [sy|sy| |sy my ey]; cbn;
    try tauto; try discriminate.
  intros _ _ _. apply binary_round_aux_number. lia.
Qed.

(** NaN, zero and the finite numbers, read off the primitive tests. *)
Lemma SFcompare_refl (x : spec_float) :
  x <> S754_nan -> SFcompare x x = Some Eq.
Proof.
  destruct x as [s|s| |s m e]; intros H; cbn.
  - reflexivity.
  - destruct s; reflexivity.
  - contradiction.
  - rewrite Z.compare_refl.
    change (PosDef.Pos.compare_cont Eq m m) with (Pos.compare m m).
    rewrite Pos.compare_refl. destruct s; reflexivity.
Qed.

Lemma is_nan_false (x : float) : is_nan x = false <-> Prim2SF x <> S754_nan.
Proof.
  unfold is_nan. rewrite eqb_spec. unfold SFeqb. split.
  - intros H E. rewrite E in H. discriminate.
  - intros H. rewrite (SFcompare_refl _ H). reflexivity.
Qed.

Lemma is_finite_true (x : float) :
  is_finite x = true -> finiteNumber (Prim2SF x).
Proof.
  unfold is_finite, is_nan, is_infinity.
  rewrite !eqb_spec, abs_spec.
  change (Prim2SF infinity) with (S754_infinity false).
  destruct (Prim2SF x) as [s|s| |s m e]; cbn; auto.
  - rewrite orb_true_r. discriminate.
  - discriminate.
Qed.

Lemma finite_is_number (x : float) : is_finite x = true -> is_nan x = false.
Proof.
  intros H. apply is_nan_false. apply is_finite_true in H.
  destruct (Prim2SF x); try discriminate; contradiction.
Qed.

Lemma not_zero (x : float) :
  is_nan x = false -> (x =? 0) = false -> nonzeroNumber (Prim2SF x).
Proof.
  rewrite is_nan_false, eqb_spec.
  change (Prim2SF 0) with (S754_zero false).
  destruct (Prim2SF x) as [s|s| |s m e]; cbn; try tauto; discriminate.
Qed.

Lemma not_at_most_zero (x : float) :
  is_nan x = false -> (x <=? 0) = false -> nonzeroNumber (Prim2SF x).
Proof.
  rewrite is_nan_false, leb_spec.
  change (Prim2SF 0) with (S754_zero false).
  destruct (Prim2SF x) as [s|s| |s m e]; cbn; try tauto; discriminate.
Qed.

Lemma sub_number (a b : float) :
  is_finite a = true -> is_finite b = true -> is_nan (a - b) = false.
Proof.
  intros Ha Hb. apply is_nan_false. rewrite sub_spec.
  apply SFsub_number; apply is_finite_true; assumption.
Qed.

Lemma div_number (a b : float) :
  is_nan a = false -> is_finite b = true -> (b =? 0) = false ->
  is_nan (a / b) = false.
Proof.
  intros Ha Hb Z. apply is_nan_false. rewrite div_spec.
  apply SFdiv_number.
  - apply is_nan_false, Ha.
  - apply is_finite_true, Hb.
  - apply not_zero; [apply finite_is_number, Hb | exact Z].
Qed.

Lemma mul_number (a b : float) :
  is_nan a = false -> is_finite b = true -> (b =? 0) = false ->
  is_nan (a * b) = false.
Proof.
  intros Ha Hb Z. apply is_nan_false. rewrite mul_spec.
  apply SFmul_number.
  - apply is_nan_false, Ha.
  - apply is_finite_true, Hb.
  - apply not_zero; [apply finite_is_number, Hb | exact Z].
Qed.

Lemma safeNum_number (x : value) : isNumber (safeNum x).
Proof.
  destruct (safeNum x) as [a|] eqn:E; cbn; [|exact I].
  apply finite_is_number, (safeNum_finite x), E.
Qed.

Lemma parseFiO2_number (x : value) : isNumber (parseFiO2 x).
Proof.
  unfold parseFiO2. destruct (safeNum x) as [n|] eqn:E; cbn; [|exact I].
  pose proof (safeNum_finite x n E) as F.
  destruct ((1.0 <? n) && (n <=? 100)); cbn.
  - apply div_number; [apply finite_is_number, F | reflexivity ..].
  - apply finite_is_number, F.
Qed.

Lemma calcSF_number (spo2 fio2 : value) : isNumber (calcSF spo2 fio2).
Proof.
  unfold calcSF.
  destruct (safeNum spo2) as [s|] eqn:Es; [|exact I].
  pose proof (parseFiO2_number fio2) as Nf.
  destruct (parseFiO2 fio2) as [f|]; [|exact I].
  destruct (f <=? 0) eqn:L; [exact I|]. cbn in *.
  apply is_nan_false. rewrite div_spec. apply SFdiv_finite_number.
  - apply is_finite_true, (safeNum_finite spo2), Es.
  - apply not_at_most_zero; assumption.
Qed.

Lemma pctChange_number (newV oldV : value) : isNumber (pctChange newV oldV).
Proof.
  unfold pctChange.
  destruct (safeNum newV) as [a|] eqn:Ea; [|exact I].
  destruct (safeNum oldV) as [b|] eqn:Eb; [|exact I].
  destruct (b =? 0) eqn:Z; [exact I|]. cbn.
  pose proof (safeNum_finite _ _ Ea) as Fa.
  pose proof (safeNum_finite _ _ Eb) as Fb.
  apply mul_number; [|reflexivity ..].
  apply div_number; [|assumption ..].
  apply sub_number; assumption.
Qed.

Lemma toMonths_number (ageValue : value) (unit : string) :
  isNumber (toMonths ageValue unit).
Proof.
  unfold toMonths. destruct (safeNum ageValue) as [v|] eqn:E; [|exact I].
  pose proof (safeNum_finite _ _ E) as F.
  destruct (unit =? "days")%string; [|destruct (unit =? "years")%string];
    cbn.
  - apply div_number; [apply finite_is_number, F | reflexivity ..].
  - apply mul_number; [apply finite_is_number, F | reflexivity ..].
  - apply finite_is_number, F.
Qed.

(** X1: no value that the engine derives is NaN: the parsed oxygen
    fraction, the age in months, both oxygenation ratios, both percent
    changes and the change of pCO2 are null or a number, whatever the
    form holds. *)
Theorem derived_values_are_numbers (d : snapshot) :
  let out := computeRisk d in
  isNumber (sf0 out) /\ isNumber (sf1 out)
  /\ isNumber (drrPct out) /\ isNumber (dhrPct out)
  /\ isNumber (dpco2 out)
  /\ isNumber (toMonths (ageValue d) (ageUnit d))
  /\ isNumber (parseFiO2 (fio2_1 d))
  /\ (forall x y, isNumber (calcSF x y))
  /\ (forall x y, isNumber (pctChange x y)).
Proof.
  cbv zeta.
  split; [apply calcSF_number|].
  split; [apply calcSF_number|].
  split; [rewrite computeRisk_drrPct; apply pctChange_number|].
  split; [rewrite computeRisk_dhrPct; apply pctChange_number|].
  split.
  { cbn [computeRisk dpco2].
    destruct (safeNum (pco2_0 d)) as [p0|] eqn:E0; [|exact I].
    destruct (safeNum (pco2_1 d)) as [p1|] eqn:E1; [|exact I].
    apply sub_number; eapply safeNum_finite; eassumption. }
  split; [apply toMonths_number|].
  split; [apply parseFiO2_number|].
  split; [exact calcSF_number | exact pctChange_number].
Qed.

(** ** The band ladders are monotone *)

Lemma ltb_mono (a b c : float) :
  (a <=? b) = true -> (b <? c) = true -> (a <? c) = true.
Proof. to_ranks. intros H1 H2. order_cases. Qed.

Lemma ltb_mono_r (a b c : float) :
  (a <=? b) = true -> (c <? a) = true -> (c <? b) = true.
Proof. to_ranks. intros H1 H2. order_cases. Qed.

Lemma leb_mono (a b c : float) :
  (a <=? b) = true -> (c <=? a) = true -> (c <=? b) = true.
Proof. to_ranks. intros H1 H2. order_cases. Qed.

Lemma whole_leb_wide (c k : Z) :
  (0 <= c <= 200)%Z -> (0 <= k <= 200)%Z ->
  (whole c <=? whole k) = (c <=? k)%Z.
Proof.
  intros Hc Hk. apply eqb_true_iff.
  revert k Hk.
  assert (T : forall k, (0 <= k < Z.of_nat 201)%Z ->
     Bool.eqb (whole c <=? whole k) (c <=? k)%Z = true).
  { revert c Hc.
    assert (T : forall c, (0 <= c < Z.of_nat 201)%Z ->
      forallb (fun k => Bool.eqb (whole c <=? whole k) (c <=? k)%Z) (upto 201)
      = true).
    { apply upto_all. vm_compute. reflexivity. }
    intros c Hc. apply upto_all, T. lia. }
  intros k Hk. apply T. lia.
Qed.

Lemma leb_points (k x y : Z) (l r : float) :
  (0 <= k <= 150)%Z -> (0 <= x <= y)%Z -> (y <= 50)%Z ->
  l = whole (k + x) -> r = whole (k + y) -> (l <=? r) = true.
Proof.
  intros Hk Hx Hy -> ->. rewrite whole_leb_wide by lia. apply Z.leb_le. lia.
Qed.

(** The points behind a literal of the code. *)
Ltac points_of c :=
  lazymatch c with
  | 40%float => constr:(40%Z) | 30%float => constr:(30%Z)
  | 18%float => constr:(18%Z) | 12%float => constr:(12%Z)
  | 10%float => constr:(10%Z) | 8%float => constr:(8%Z)
  | 7%float => constr:(7%Z) | 6%float => constr:(6%Z)
  | 5%float => constr:(5%Z) | 4%float => constr:(4%Z)
  | 3%float => constr:(3%Z) | 2%float => constr:(2%Z)
  | 1%float => constr:(1%Z)
  end.

Ltac side_points e :=
  lazymatch e with
  | (_ + ?c)%float => points_of c
  | _ => constr:(0%Z)
  end.

Ltac side_is_whole :=
  lazymatch goal with
  | |- _ = whole (?k + 0) => rewrite Z.add_0_r; reflexivity
  | |- _ = whole (?k + ?c) => apply (whole_add k c); lia
  end.

(** Two bands that the order of the values excludes. *)
Ltac excluded :=
  match goal with
  | Hab : (?a <=? ?b) = true, Hb : (?b <? ?c) = true,
    Ha : (?a <? ?c) = false |- _ =>
      rewrite (ltb_mono a b c Hab Hb) in Ha; discriminate Ha
  | Hab : (?a <=? ?b) = true, Ha : (?c <=? ?a) = true,
    Hb : (?c <=? ?b) = false |- _ =>
      rewrite (leb_mono a b c Hab Ha) in Hb; discriminate Hb
  | Hab : (?a <=? ?b) = true, Ha : (?c <? ?a) = true,
    Hb : (?c <? ?b) = false |- _ =>
      rewrite (ltb_mono_r a b c Hab Ha) in Hb; discriminate Hb
  end.

Ltac ladder :=
  intros Hab t k Hk Ht;
  repeat match goal with
         | |- context [if ?c then _ else _] =>
             let E := fresh "E" in destruct c eqn:E
         end;
  cbn [running add addFactor]; rewrite ?Ht;
  first
    [ excluded
    | match goal with
      | |- (?l <=? ?r) = true =>
          let x := side_points l in
          let y := side_points r in
          apply (leb_points k x y); [lia | lia | lia | side_is_whole ..]
      end ].

Lemma scoreSF_monotone (a b : float) :
  (a <=? b) = true -> noMore (scoreSF (Some b)) (scoreSF (Some a)).
Proof. unfold scoreSF. ladder. Qed.

Lemma scoreRR_monotone (a b : float) :
  (a <=? b) = true -> noMore (scoreRR (Some a)) (scoreRR (Some b)).
Proof. unfold scoreRR. ladder. Qed.

Lemma scoreHR_monotone (a b : float) :
  (a <=? b) = true -> noMore (scoreHR (Some a)) (scoreHR (Some b)).
Proof. unfold scoreHR. ladder. Qed.

Lemma scoreAge_monotone (a b : float) :
  (a <=? b) = true -> noMore (scoreAge (Some b)) (scoreAge (Some a)).
Proof. unfold scoreAge. ladder. Qed.

Lemma scoreFiO2_monotone (a b : float) :
  (a <=? b) = true -> noMore (scoreFiO2 (Some a)) (scoreFiO2 (Some b)).
Proof. unfold scoreFiO2. ladder. Qed.

Lemma scorePrism_monotone (a b : float) :
  (a <=? b) = true -> noMore (scorePrism (Some a)) (scorePrism (Some b)).
Proof. unfold scorePrism. ladder. Qed.

Lemma scoreIpap_monotone (a b : float) :
  (a <=? b) = true -> noMore (scoreIpap (Some a)) (scoreIpap (Some b)).
Proof. unfold scoreIpap. ladder. Qed.

Lemma scorePco2_monotone (a b : float) :
  (a <=? b) = true -> noMore (scorePco2 (Some a)) (scorePco2 (Some b)).
Proof. unfold scorePco2. ladder. Qed.

Lemma scorePh_monotone (p0 a b : float) :
  (a <=? b) = true ->
  noMore (scorePh (Some p0) (Some b)) (scorePh (Some p0) (Some a)).
Proof. unfold scorePh. ladder. Qed.

(** X2: every graded component is monotone in its value.  A lower SF,
    a younger age and a lower pH at 1–2 h never score less; a higher
    change of RR or HR, a higher FiO2 at initiation, PRISM, IPAP and
    change of pCO2 never score less. *)
Theorem ladders_are_monotone (a b : float) :
  (a <=? b) = true ->
  noMore (scoreSF (Some b)) (scoreSF (Some a))
  /\ noMore (scoreAge (Some b)) (scoreAge (Some a))
  /\ (forall p0, noMore (scorePh (Some p0) (Some b))
                   (scorePh (Some p0) (Some a)))
  /\ noMore (scoreRR (Some a)) (scoreRR (Some b))
  /\ noMore (scoreHR (Some a)) (scoreHR (Some b))
  /\ noMore (scoreFiO2 (Some a)) (scoreFiO2 (Some b))
  /\ noMore (scorePrism (Some a)) (scorePrism (Some b))
  /\ noMore (scoreIpap (Some a)) (scoreIpap (Some b))
  /\ noMore (scorePco2 (Some a)) (scorePco2 (Some b)).
Proof.
  intros H.
  split; [apply scoreSF_monotone, H|].
  split; [apply scoreAge_monotone, H|].
  split; [intros p0; apply scorePh_monotone, H|].
  split; [apply scoreRR_monotone, H|].
  split; [apply scoreHR_monotone, H|].
  split; [apply scoreFiO2_monotone, H|].
  split; [apply scorePrism_monotone, H|].
  split; [apply scoreIpap_monotone, H|].
  apply scorePco2_monotone, H.
Qed.

(** SF 140 against SF 200 on a tally of 5; RR down by 15% against RR
    unchanged. *)
Lemma ladders_are_monotone_witness :
  (140 <=? 200) = true
  /\ running (scoreSF (Some 140) {| running := 5; factors := [] |}) = 45
  /\ running (scoreSF (Some 200) {| running := 5; factors := [] |}) = 23
  /\ (running (scoreSF (Some 200) {| running := 5; factors := [] |})
      <=? running (scoreSF (Some 140) {| running := 5; factors := [] |}))
     = true.
Proof.
  split; [reflexivity|].
  split; [vm_compute; reflexivity|].
  split; [vm_compute; reflexivity|].
  destruct (ladders_are_monotone 140 200 eq_refl) as (H & _).
  apply (H {| running := 5; factors := [] |} 5%Z); [lia | reflexivity].
Defined.

(** ** The score is monotone in the 1–2 h oxygenation ratio *)

Ltac fixed_points c :=
  exists c; split;
  [ lia
  | intros t k Hk Ht; cbn [running add addFactor]; try rewrite Ht;
    adds_points c ].

Ltac fixed_component :=
  repeat match goal with
         | |- context [match ?x with Some _ => _ | None => _ end] => destruct x
         | |- context [if ?b then _ else _] => destruct b
         end;
  first [ fixed_points 0%Z | fixed_points 1%Z | fixed_points 2%Z
        | fixed_points 3%Z | fixed_points 4%Z | fixed_points 5%Z
        | fixed_points 6%Z | fixed_points 7%Z | fixed_points 8%Z
        | fixed_points 10%Z | fixed_points 12%Z | fixed_points 18%Z
        | fixed_points 30%Z | fixed_points 40%Z ].

Lemma scoreSF_fixed sf : fixedPoints (scoreSF sf) 3 40.
Proof. unfold fixedPoints, contributes, scoreSF. fixed_component. Qed.

Lemma scoreRR_fixed p : fixedPoints (scoreRR p) 2 18.
Proof. unfold fixedPoints, contributes, scoreRR. fixed_component. Qed.

Lemma scoreHR_fixed p : fixedPoints (scoreHR p) 1 10.
Proof. unfold fixedPoints, contributes, scoreHR. fixed_component. Qed.

Lemma scoreAge_fixed m : fixedPoints (scoreAge m) 2 10.
Proof. unfold fixedPoints, contributes, scoreAge. fixed_component. Qed.

Lemma scoreType_fixed a : fixedPoints (scoreType a) 0 10.
Proof. unfold fixedPoints, contributes, scoreType. fixed_component. Qed.

Lemma scoreDiag_fixed g : fixedPoints (scoreDiag g) 0 12.
Proof. unfold fixedPoints, contributes, scoreDiag. fixed_component. Qed.

Lemma scoreFiO2_fixed f : fixedPoints (scoreFiO2 f) 0 8.
Proof. unfold fixedPoints, contributes, scoreFiO2. fixed_component. Qed.

Lemma scorePrism_fixed p : fixedPoints (scorePrism p) 0 10.
Proof. unfold fixedPoints, contributes, scorePrism. fixed_component. Qed.

Lemma scoreIpap_fixed p : fixedPoints (scoreIpap p) 0 6.
Proof. unfold fixedPoints, contributes, scoreIpap. fixed_component. Qed.

Lemma scorePco2_fixed c : fixedPoints (scorePco2 c) 0 6.
Proof. unfold fixedPoints, contributes, scorePco2. fixed_component. Qed.

Lemma scorePh_fixed p0 p1 : fixedPoints (scorePh p0 p1) 0 4.
Proof. unfold fixedPoints, contributes, scorePh. fixed_component. Qed.

(** A component keeps one tally behind the other. *)
Lemma trails_step (step : tally -> tally) (lo hi bound : Z) (t1 t2 : tally) :
  fixedPoints step lo hi -> (0 <= lo)%Z -> (bound <= 150)%Z ->
  trails t1 t2 bound -> trails (step t1) (step t2) (bound + hi).
Proof.
  intros (c & Hc & S) Hlo Hb (k1 & k2 & Hk & Hk2 & E1 & E2).
  destruct (S t1 k1 ltac:(lia) E1) as (c1 & Hc1 & E1').
  destruct (S t2 k2 ltac:(lia) E2) as (c2 & Hc2 & E2').
  exists (k1 + c1)%Z, (k2 + c2)%Z.
  repeat split; try lia; assumption.
Qed.

Lemma afterSF_trails (d : snapshot) (t1 t2 : tally) :
  trails t1 t2 40 -> trails (afterSF d t1) (afterSF d t2) 134.
Proof.
  intros H. unfold afterSF. cbv zeta.
  apply (trails_step _ 0 4 130); [apply scorePh_fixed | lia | lia |].
  apply (trails_step _ 0 6 124); [apply scorePco2_fixed | lia | lia |].
  apply (trails_step _ 0 6 118); [apply scoreIpap_fixed | lia | lia |].
  apply (trails_step _ 0 10 108); [apply scorePrism_fixed | lia | lia |].
  apply (trails_step _ 0 8 100); [apply scoreFiO2_fixed | lia | lia |].
  apply (trails_step _ 0 12 88); [apply scoreDiag_fixed | lia | lia |].
  apply (trails_step _ 0 10 78); [apply scoreType_fixed | lia | lia |].
  apply (trails_step _ 2 10 68); [apply scoreAge_fixed | lia | lia |].
  apply (trails_step _ 1 10 58); [apply scoreHR_fixed | lia | lia |].
  apply (trails_step _ 2 18 40); [apply scoreRR_fixed | lia | lia |].
  exact H.
Qed.

Lemma scoreSF_trails (a b : float) :
  (a <=? b) = true ->
  trails (scoreSF (Some b) {| running := 0; factors := [] |})
    (scoreSF (Some a) {| running := 0; factors := [] |}) 40.
Proof.
  intros H.
  pose proof (scoreSF_monotone a b H {| running := 0; factors := [] |} 0%Z
                ltac:(lia) eq_refl) as L.
  destruct (scoreSF_contributes (Some a) {| running := 0; factors := [] |}
              0%Z ltac:(lia) eq_refl) as (ca & Ha & Ea).
  destruct (scoreSF_contributes (Some b) {| running := 0; factors := [] |}
              0%Z ltac:(lia) eq_refl) as (cb & Hb & Eb).
  rewrite Ea, Eb, whole_leb_wide in L by lia. apply Z.leb_le in L.
  exists (0 + cb)%Z, (0 + ca)%Z. repeat split; try lia; assumption.
Qed.

Lemma tallied_afterSF (d : snapshot) :
  tallied d
  = afterSF d (scoreSF (sf1 (computeRisk d)) {| running := 0; factors := [] |}).
Proof. reflexivity. Qed.

(** The end of the computation keeps one tally behind the other. *)
Lemma finish_trails (r : bool) (t1 t2 : tally) :
  trails t1 t2 134 ->
  (clamp (Math_round (running (overrideRedFlags r t1))) 0 100
   <=? clamp (Math_round (running (overrideRedFlags r t2))) 0 100) = true.
Proof.
  intros (k1 & k2 & Hk & Hk2 & E1 & E2).
  assert (R : forall t k, (0 <= k <= 134)%Z -> running t = whole k ->
            clamp (Math_round (running (overrideRedFlags r t))) 0 100
            = whole (Z.min (if r then Z.max k 85 else k) 100)).
  { intros t k Hk' E. unfold overrideRedFlags. destruct r; cbn [running addFactor].
    - rewrite E, whole_max_85 by lia. apply whole_round_clamp. lia.
    - rewrite E. apply whole_round_clamp. lia. }
  rewrite (R t1 k1), (R t2 k2) by (assumption || lia).
  apply whole_leb_true; destruct r; lia.
Qed.

(** X3: with every other field the same, a higher oxygenation ratio at
    1–2 h never gives a higher final score. *)
Theorem score_monotone_in_sf1 (d : snapshot) (s f : string) (a b : float) :
  sf1 (computeRisk d) = Some a ->
  sf1 (computeRisk (withOxygen1 d s f)) = Some b ->
  (a <=? b) = true ->
  (score (computeRisk (withOxygen1 d s f)) <=? score (computeRisk d)) = true.
Proof.
  intros Ea Eb H.
  rewrite !computeRisk_score. unfold overridden.
  rewrite !tallied_afterSF, Ea, Eb.
  change (afterSF (withOxygen1 d s f)) with (afterSF d).
  change (redFlags (withOxygen1 d s f)) with (redFlags d).
  apply finish_trails, afterSF_trails, scoreSF_trails, H.
Qed.

(** Scenario A at a ratio of 150 scores 49; with the oxygen at 30% the
    ratio is 300 and the score drops to 22. *)
Lemma score_monotone_in_sf1_witness :
  sf1 (computeRisk scenarioA) = Some 150
  /\ sf1 (computeRisk (withOxygen1 scenarioA "90" "30")) = Some 300
  /\ score (computeRisk scenarioA) = 49
  /\ score (computeRisk (withOxygen1 scenarioA "90" "30")) = 22
  /\ (score (computeRisk (withOxygen1 scenarioA "90" "30"))
      <=? score (computeRisk scenarioA)) = true.
Proof.
  split; [vm_compute; reflexivity|].
  split; [vm_compute; reflexivity|].
  split; [vm_compute; reflexivity|].
  split; [vm_compute; reflexivity|].
  apply (score_monotone_in_sf1 scenarioA "90" "30" 150 300);
    vm_compute; reflexivity.
Defined.

(** ** The ranking of the factors *)

Lemma insert_permutation {A : Type} (cmp : A -> A -> float) (a : A)
    (l : list A) :
  Permutation (a :: l) (insert cmp a l).
Proof.
  induction l as [|b l IH]; cbn [insert].
  - apply Permutation_refl.
  - destruct (0 <? cmp a b).
    + apply perm_trans with (b :: a :: l); [apply perm_swap|].
      apply perm_skip, IH.
    + apply Permutation_refl.
Qed.

Lemma sort_permutation {A : Type} (cmp : A -> A -> float) (l : list A) :
  Permutation l (Array_sort cmp l).
Proof.
  unfold Array_sort. induction l as [|a l IH]; cbn [fold_right].
  - apply perm_nil.
  - apply perm_trans with (a :: fold_right (insert cmp) [] l).
    + apply perm_skip, IH.
    + apply insert_permutation.
Qed.

(** The comparison of the ranking on weights up to 50. *)
Lemma ranking_table (x y : Z) :
  (0 <= x <= 50)%Z -> (0 <= y <= 50)%Z ->
  (0 <? whole y - whole x) = (x <? y)%Z
  /\ (whole x <=? whole y) = (x <=? y)%Z
  /\ (whole x =? whole y) = (x =? y)%Z.
Proof.
  intros Hx Hy.
  assert (T : forall x, (0 <= x < Z.of_nat 51)%Z ->
            forallb (fun y =>
              Bool.eqb (0 <? whole y - whole x) (x <? y)%Z
              && Bool.eqb (whole x <=? whole y) (x <=? y)%Z
              && Bool.eqb (whole x =? whole y) (x =? y)%Z) (upto 51) = true).
  { apply upto_all. vm_compute. reflexivity. }
  pose proof (upto_all 51 _ (T x ltac:(lia)) y ltac:(lia)) as H.
  cbv beta in H. apply andb_true_iff in H. destruct H as (H & H3).
  apply andb_true_iff in H. destruct H as (H1 & H2).
  apply Bool.eqb_prop in H1, H2, H3. repeat split; assumption.
Qed.

Lemma insert_small (a : factor) (l : list factor) :
  smallWeight a -> Forall smallWeight l ->
  Forall smallWeight (insert (fun a b => w b - w a) a l).
Proof.
  intros Ha Hl.
  apply (Permutation_Forall (insert_permutation _ a l)).
  constructor; assumption.
Qed.

Lemma insert_sorted (a : factor) (l : list factor) :
  smallWeight a -> Forall smallWeight l -> StronglySorted heavier l ->
  StronglySorted heavier (insert (fun a b => w b - w a) a l).
Proof.
  intros (ka & Hka & Ea) Hl S.
  induction S as [|b l S IH F]; cbn [insert].
  - repeat constructor.
  - inversion Hl as [|? ? (kb & Hkb & Eb) Hl']; subst.
    destruct (ranking_table ka kb Hka Hkb) as (C & L & _).
    destruct (ranking_table kb ka Hkb Hka) as (_ & L' & _).
    rewrite Ea, Eb, C.
    destruct (Z.ltb_spec ka kb) as [Lt|Ge].
    + constructor; [apply IH, Hl'|].
      apply (Permutation_Forall (insert_permutation _ a l)).
      constructor; [|exact F].
      unfold heavier. rewrite Ea, Eb, L. apply Z.leb_le. lia.
    + constructor; [constructor; assumption|].
      assert (Hab : heavier a b).
      { unfold heavier. rewrite Ea, Eb, L'. apply Z.leb_le. lia. }
      constructor; [exact Hab|].
      rewrite Forall_forall in F, Hl' |- *. intros z Hz.
      destruct (Hl' z Hz) as (kz & Hkz & Ez).
      pose proof (F z Hz) as Hbz. unfold heavier in Hbz |- *.
      destruct (ranking_table kz kb Hkz Hkb) as (_ & Lz & _).
      destruct (ranking_table kz ka Hkz Hka) as (_ & Lz' & _).
      rewrite Ez, Eb, Lz in Hbz. apply Z.leb_le in Hbz.
      rewrite Ez, Ea, Lz'. apply Z.leb_le. lia.
Qed.

Lemma sort_small (l : list factor) :
  Forall smallWeight l ->
  Forall smallWeight (Array_sort (fun a b => w b - w a) l).
Proof. apply Permutation_Forall, sort_permutation. Qed.

Lemma sort_sorted (l : list factor) :
  Forall smallWeight l ->
  StronglySorted heavier (Array_sort (fun a b => w b - w a) l).
Proof.
  intros H. induction H as [|a l Ha Hl IH].
  - constructor.
  - change (Array_sort (fun a b => w b - w a) (a :: l))
      with (insert (fun a b => w b - w a) a
              (Array_sort (fun a b => w b - w a) l)).
    apply insert_sorted; [exact Ha | apply sort_small, Hl | exact IH].
Qed.

Lemma eqb_both (x y v : float) :
  (x =? v) = true -> (y =? v) = true -> (x =? y) = true.
Proof.
  rewrite !eqb_spec. unfold SFeqb. rewrite !SFcompare_rank.
  destruct (rank (Prim2SF x)) as [[[? ?] ?]|],
    (rank (Prim2SF y)) as [[[? ?] ?]|],
    (rank (Prim2SF v)) as [[[? ?] ?]|];
    try discriminate; unfold lex; intros H1 H2; order_cases.
Qed.

(** Entries of one weight keep their order. *)
Lemma insert_stable (v : float) (a : factor) (l : list factor) :
  smallWeight a -> Forall smallWeight l ->
  filter (hasWeight v) (insert (fun a b => w b - w a) a l)
  = filter (hasWeight v) (a :: l).
Proof.
  intros (ka & Hka & Ea) Hl.
  induction Hl as [|b l (kb & Hkb & Eb) Hl IH]; cbn [insert].
  - reflexivity.
  - destruct (ranking_table ka kb Hka Hkb) as (C & _ & _).
    rewrite Ea, Eb, C.
    destruct (Z.ltb_spec ka kb) as [Lt|Ge]; [|reflexivity].
    cbn [filter] in IH |- *. rewrite IH.
    unfold hasWeight.
    destruct (w a =? v) eqn:Va, (w b =? v) eqn:Vb; try reflexivity.
    exfalso. pose proof (eqb_both _ _ _ Va Vb) as E.
    destruct (ranking_table ka kb Hka Hkb) as (_ & _ & Q).
    rewrite Ea, Eb, Q in E. apply Z.eqb_eq in E. lia.
Qed.

Lemma sort_stable (v : float) (l : list factor) :
  Forall smallWeight l ->
  filter (hasWeight v) (Array_sort (fun a b => w b - w a) l)
  = filter (hasWeight v) l.
Proof.
  intros H. induction H as [|a l Ha Hl IH].
  - reflexivity.
  - change (Array_sort (fun a b => w b - w a) (a :: l))
      with (insert (fun a b => w b - w a) a
              (Array_sort (fun a b => w b - w a) l)).
    rewrite insert_stable by (assumption || apply sort_small, Hl).
    cbn [filter]. rewrite IH. reflexivity.
Qed.

Lemma recorded_weights_small (d : snapshot) :
  Forall smallWeight (factors (overridden d)).
Proof.
  unfold overridden. rewrite overrideRedFlags_records.
  apply Forall_app. split.
  - apply Forall_forall. intros f Hf. rewrite tallied_factors in Hf.
    destruct (labelled_weights _ _ _ _ _ f Hf) as (k & Hk & E).
    exists k. split; [lia | exact E].
  - unfold redEntries. destruct (redFlags d); repeat constructor.
    exists 50%Z. split; [lia | reflexivity].
Qed.

(** X4: the ranking behind [topFactors] holds the recorded factors, all
    of them and nothing else, by weight from the heaviest down, and
    factors of one weight stay in the order of their evaluation;
    [topFactors] is the labels of its first three, so at most three. *)
Theorem ranking_sorted_and_stable (d : snapshot) :
  let recorded := factors (overridden d) in
  let ranked := Array_sort (fun a b => w b - w a) recorded in
  Permutation recorded ranked
  /\ StronglySorted heavier ranked
  /\ (forall v, filter (hasWeight v) ranked = filter (hasWeight v) recorded)
  /\ topFactors (computeRisk d) = map label (firstn 3 ranked)
  /\ (List.length (topFactors (computeRisk d)) <= 3)%nat
  /\ List.length (topFactors (computeRisk d))
     = Nat.min 3 (List.length recorded).
Proof.
  cbv zeta. pose proof (recorded_weights_small d) as S.
  split; [apply sort_permutation|].
  split; [apply sort_sorted, S|].
  split; [intros v; apply sort_stable, S|].
  split; [reflexivity|].
  rewrite computeRisk_topFactors, length_map, length_firstn.
  rewrite <- (Permutation_length (sort_permutation _ (factors (overridden d)))).
  split; [apply Nat.le_min_l | reflexivity].
Qed.

(** ** Tier, actions and what the page shows *)

Lemma computeRisk_tier (d : snapshot) :
  exists j, ((if redFlags d then 85 else 8) <= j <= 100)%Z
    /\ score (computeRisk d) = whole j
    /\ tier (computeRisk d) = fst (classify j)
    /\ badge (computeRisk d) = snd (classify j).
Proof.
  destruct (score_between d) as (j & Hj & E).
  exists j. split; [exact Hj|]. split; [exact E|].
  change (tier (computeRisk d)) with (fst (tiering (score (computeRisk d)))).
  change (badge (computeRisk d)) with (snd (tiering (score (computeRisk d)))).
  rewrite E, tiering_whole by (destruct (redFlags d); lia).
  split; reflexivity.
Qed.

Ltac by_tier j :=
  unfold classify;
  destruct (Z.leb_spec 85 j);
    [|destruct (Z.leb_spec 65 j); [|destruct (Z.leb_spec 45 j)]];
  cbn [fst snd].

(** X5: the tier is always one of the four names, never the initial
    dash, and [renderResult] paints the badge in the colour of the
    score: red from 85, amber from 65, blue from 45 and green below; the
    neutral style never stays. *)
Theorem badge_style_follows_score (d : snapshot) :
  let view := renderResult (computeRisk d) in
  exists j, (0 <= j <= 100)%Z /\ score (computeRisk d) = whole j
    /\ riskLabel view = tier (computeRisk d)
    /\ riskBadge view = badge (computeRisk d)
    /\ ((85 <= j)%Z ->
          riskLabel view = "Muito alto"
          /\ borderColor view = "rgba(239,68,68,.45)"
          /\ background view = "rgba(239,68,68,.12)")
    /\ ((65 <= j < 85)%Z ->
          riskLabel view = "Alto"
          /\ borderColor view = "rgba(245,158,11,.45)"
          /\ background view = "rgba(245,158,11,.12)")
    /\ ((45 <= j < 65)%Z ->
          riskLabel view = "Intermédio"
          /\ borderColor view = "rgba(59,130,246,.45)"
          /\ background view = "rgba(59,130,246,.12)")
    /\ ((j < 45)%Z ->
          riskLabel view = "Baixo"
          /\ borderColor view = "rgba(34,197,94,.45)"
          /\ background view = "rgba(34,197,94,.10)")
    /\ borderColor view <> "rgba(255,255,255,.08)"
    /\ background view <> "rgba(255,255,255,.06)".
Proof.
  cbv zeta. destruct (computeRisk_tier d) as (j & Hj & E & T & _).
  exists j. split; [destruct (redFlags d); lia|]. split; [exact E|].
  cbn [renderResult riskLabel riskBadge borderColor background].
  split; [reflexivity|]. split; [reflexivity|].
  rewrite T. clear T E.
  by_tier j;
    (split; [|split; [|split; [|split; [|split]]]]);
    try (intros R; try lia; repeat split; reflexivity);
    intros R; discriminate R.
Qed.

Lemma computeRisk_actions (d : snapshot) :
  actions (computeRisk d)
  = suggestions (operationalCriteria d) (redFlags d)
      (score (computeRisk d)) (sf1 (computeRisk d)).
Proof. reflexivity. Qed.

(** X6: the block of actions is the one of the tier: the four
    escalation actions with "Muito alto" and "Alto", the two
    reassessment actions with "Intermédio", the one surveillance action
    with "Baixo".  The red-flag test of that branch changes nothing, as
    red flags already put the score at 85 or more.  There are between
    one and six actions. *)
Theorem actions_follow_tier (d : snapshot) :
  let out := computeRisk d in
  actions out
  = pushIf (operationalCriteria d)
      "Há gatilhos assinalados: definir janela curta de reavaliação e plano de escalada (ex: intubação/VM se deterioração)."
    ++ tierActions (tier out)
    ++ pushIf (below (sf1 out) 193)
         "Se não atingir SF ~190 após 1 h de VNI, a necessidade de intubação deve ser ponderada no contexto clínico global."
  /\ ((65 <=? score out) || redFlags d = (65 <=? score out))
  /\ (1 <= List.length (actions out) <= 6)%nat.
Proof.
  cbv zeta. destruct (computeRisk_tier d) as (j & Hj & E & T & _).
  assert (Hj' : (0 <= j <= 100)%Z) by (destruct (redFlags d); lia).
  rewrite computeRisk_actions, T, E. unfold suggestions.
  change 65 with (whole 65). change 45 with (whole 45).
  rewrite !whole_leb by lia.
  assert (R : ((65 <=? j)%Z || redFlags d = (65 <=? j)%Z)).
  { destruct (redFlags d); [|apply orb_false_r].
    destruct (Z.leb_spec 65 j); [reflexivity | lia]. }
  rewrite R. clear E T R.
  destruct (operationalCriteria d), (below (sf1 (computeRisk d)) 193);
    by_tier j;
    repeat match goal with
           | |- context [(?a <=? j)%Z] => destruct (Z.leb_spec a j); try lia
           end;
    (split; [reflexivity|]); (split; [reflexivity|]);
    cbn [pushIf app List.length]; lia.
Qed.

(** ** Red flags through the whole assessment *)

Lemma append_assoc (a b c : string) : (a +++ b) +++ c = a +++ (b +++ c).
Proof. induction a as [|x a IH]; cbn; [reflexivity | rewrite IH; reflexivity]. Qed.

(** Joining a list that is not empty and one more element. *)
Lemma join_last (sep : string) (l : list string) (x y : string) :
  join sep ((x :: l) ++ [y]) = join sep (x :: l) +++ sep +++ y.
Proof.
  unfold join. revert x. induction l as [|z l IH]; intros x.
  - reflexivity.
  - change ((x :: z :: l) ++ [y]) with (x :: ((z :: l) ++ [y])).
    change (String.concat sep (x :: (z :: l) ++ [y]))
      with (x +++ sep +++ String.concat sep ((z :: l) ++ [y])).
    rewrite IH.
    change (String.concat sep (x :: z :: l))
      with (x +++ sep +++ String.concat sep (z :: l)).
    rewrite !append_assoc. reflexivity.
Qed.

Lemma join_first (sep x : string) (l : list string) :
  exists rest, join sep (x :: l) = x +++ rest.
Proof.
  destruct l as [|z l].
  - exists EmptyString. cbn. induction x as [|c x IH]; cbn;
      [reflexivity | f_equal; exact IH].
  - eexists. reflexivity.
Qed.

Lemma lines_last {A : Type} (a b c s y : A) (p q : list A) :
  [a; b] ++ p ++ [c] ++ q ++ [s] ++ [y]
  = (a :: b :: p ++ [c] ++ q ++ [s]) ++ [y].
Proof.
  cbn [app]. do 2 f_equal.
  rewrite <- app_assoc. cbn [app]. rewrite <- app_assoc. reflexivity.
Qed.

(** X7: with any red flag the tier is "Muito alto" and the badge "ALTO
    RISCO", the explanation starts with the red-flag note, the actions
    are the four escalation actions (after the trigger line, before the
    SF reminder) and the summary ends with the line "Red flags: SIM". *)
Theorem red_flags_assessment (d : snapshot) :
  rfHemodyn d = true \/ rfGcs d = true \/ rfSecretions d = true
  \/ rfApnea d = true \/ rfPtx d = true ->
  let out := computeRisk d in
  tier out = "Muito alto" /\ badge out = "ALTO RISCO"
  /\ (exists rest,
        explain out
        = "Há red flags clínicas assinaladas (isto pesa mais do que qualquer score)."
          +++ rest)
  /\ actions out
     = pushIf (operationalCriteria d)
         "Há gatilhos assinalados: definir janela curta de reavaliação e plano de escalada (ex: intubação/VM se deterioração)."
       ++ tierActions "Muito alto"
       ++ pushIf (below (sf1 out) 193)
            "Se não atingir SF ~190 após 1 h de VNI, a necessidade de intubação deve ser ponderada no contexto clínico global."
  /\ (exists before,
        summary out = before +++ newline +++ "Red flags: SIM").
Proof.
  intros H. apply any_red_flag in H. cbv zeta.
  destruct (computeRisk_tier d) as (j & Hj & E & T & B).
  rewrite H in Hj.
  assert (C : classify j = ("Muito alto", "ALTO RISCO")).
  { unfold classify. destruct (Z.leb_spec 85 j); [reflexivity | lia]. }
  rewrite C in T, B. cbn [fst snd] in T, B.
  split; [exact T|]. split; [exact B|]. split; [|split].
  - cbn [computeRisk explain]. rewrite H. unfold explanation.
    cbn [pushIf app]. apply join_first.
  - rewrite computeRisk_actions, H, E. unfold suggestions.
    rewrite orb_true_r. reflexivity.
  - cbn [computeRisk summary]. rewrite H. unfold summaryText.
    cbn [pushIf].
    rewrite lines_last. eexists. apply join_last.
Qed.

(** Scenario B: every red flag and nothing else. *)
Lemma red_flags_assessment_witness :
  rfHemodyn scenarioB = true
  /\ tier (computeRisk scenarioB) = "Muito alto"
  /\ badge (computeRisk scenarioB) = "ALTO RISCO"
  /\ explain (computeRisk scenarioB)
     = "Há red flags clínicas assinaladas (isto pesa mais do que qualquer score)."
  /\ actions (computeRisk scenarioB) = tierActions "Muito alto".
Proof.
  split; [reflexivity|].
  destruct (red_flags_assessment scenarioB) as (T & B & _ & A & _).
  - left; reflexivity.
  - split; [exact T|]. split; [exact B|].
    split; [vm_compute; reflexivity|].
    rewrite A. vm_compute. reflexivity.
Defined.

(** ** Fields that the engine does not read *)

(** X8: two groups of fields are collected and not scored.  The two
    EPAP fields are never read: an assessment is the same whatever they
    hold.  The saturation at initiation is only reported: it changes
    [sf0] and the line of the summary that prints it, and nothing that
    is scored or ranked. *)
Theorem fields_not_scored (d : snapshot) (e0 e1 s : string) :
  let out := computeRisk d in
  let out' := computeRisk (withSpo2_0 d s) in
  computeRisk (withEpap d e0 e1) = out
  /\ score out' = score out /\ tier out' = tier out /\ badge out' = badge out
  /\ factors (overridden (withSpo2_0 d s)) = factors (overridden d)
  /\ topFactors out' = topFactors out
  /\ explain out' = explain out /\ actions out' = actions out
  /\ sf1 out' = sf1 out /\ drrPct out' = drrPct out
  /\ dhrPct out' = dhrPct out /\ dpco2 out' = dpco2 out
  /\ oxyCtx out' = oxyCtx out /\ brief out' = brief out
  /\ sf0 out' = calcSF s (fio2_0 d).
Proof.
  cbv zeta. split; [reflexivity|].
  repeat split; reflexivity.
Qed.

(** ** The oxygenation context and the live preview *)

Lemma sf_needs_fio2 (spo2 fio2 : value) :
  parseFiO2 fio2 = None -> calcSF spo2 fio2 = None.
Proof.
  intros H. unfold calcSF. rewrite H. destruct (safeNum spo2); reflexivity.
Qed.

(** X9: the oxygenation context is null exactly when the oxygen input
    at 1–2 h does not parse: a ratio needs that input, so that the
    context never holds the SF part alone.  The live preview shows a
    dash in exactly that case, and its two SF texts are those of the
    result page. *)
Theorem oxygen_context_shown (d : snapshot) :
  let out := computeRisk d in
  let live := updateLivePreview d in
  let view := renderResult out in
  (oxyCtx out = None <-> parseFiO2 (fio2_1 d) = None)
  /\ (parseFiO2 (fio2_1 d) = None -> sf1 out = None)
  /\ (liveOxy live = "—" <-> oxyCtx out = None)
  /\ (view_oxyCtx view = "—" <-> oxyCtx out = None)
  /\ liveSf0 live = view_sf0 view
  /\ liveSf1 live = view_sf1 view.
Proof.
  cbv zeta.
  cbn [computeRisk oxyCtx sf1 sf0 renderResult view_oxyCtx view_sf0 view_sf1
       updateLivePreview liveOxy liveSf0 liveSf1].
  split; [|split; [|split; [|split; [|split]]]]; try reflexivity.
  - unfold oxygenContext, calcSF.
    destruct (parseFiO2 (fio2_1 d)) as [f|].
    + destruct (safeNum (spo2_1 d)) as [s|];
        [destruct (f <=? 0), (s / f <? 150), (s / f <? 193)|];
        destruct (0.7 <=? f), (0.5 <=? f); cbn; split; discriminate.
    + destruct (safeNum (spo2_1 d)); cbn; split; reflexivity.
  - apply sf_needs_fio2.
  - unfold oxygenContext, calcSF.
    destruct (parseFiO2 (fio2_1 d)) as [f|].
    + destruct (safeNum (spo2_1 d)) as [s|];
        [destruct (f <=? 0), (s / f <? 150), (s / f <? 193)|];
        destruct (0.7 <=? f), (0.5 <=? f); cbn; split; discriminate.
    + destruct (safeNum (spo2_1 d)); cbn; split; reflexivity.
  - unfold oxygenContext, calcSF.
    destruct (parseFiO2 (fio2_1 d)) as [f|].
    + destruct (safeNum (spo2_1 d)) as [s|];
        [destruct (f <=? 0), (s / f <? 150), (s / f <? 193)|];
        destruct (0.7 <=? f), (0.5 <=? f); cbn; split; discriminate.
    + destruct (safeNum (spo2_1 d)); cbn; split; reflexivity.
Qed.

(** ** The history *)

Section HistoryFacts.

Variable A : Type.

Lemma firstn_cons_firstn (n : nat) (x : A) (l : list A) :
  firstn n (x :: firstn n l) = firstn n (x :: l).
Proof.
  destruct n as [|n]; [reflexivity|]. cbn [firstn]. f_equal.
  revert n. induction l as [|y l IH]; intros n.
  - destruct n; reflexivity.
  - destruct n as [|n]; [reflexivity|]. cbn [firstn]. f_equal. apply IH.
Qed.

Lemma pushHistory_load (x : A) (st : History.stored A) :
  History.loadHistory A (snd (History.pushHistory A x st))
  = firstn 10 (x :: History.loadHistory A st).
Proof. reflexivity. Qed.

Lemma pushAll_last (entries : list A) (x : A) (st : History.stored A) :
  History.pushAll A (entries ++ [x]) st
  = snd (History.pushHistory A x (History.pushAll A entries st)).
Proof. unfold History.pushAll. rewrite fold_left_app. reflexivity. Qed.

Lemma loadHistory_pushAll (e : A) (entries : list A)
    (st : History.stored A) :
  History.loadHistory A (History.pushAll A (e :: entries) st)
  = firstn 10 (rev (e :: entries) ++ History.loadHistory A st).
Proof.
  induction entries as [|x entries IH] using rev_ind.
  - reflexivity.
  - change (e :: entries ++ [x]) with ((e :: entries) ++ [x]).
    rewrite pushAll_last, pushHistory_load, IH, rev_app_distr.
    cbn [rev app]. apply firstn_cons_firstn.
Qed.

(** X10: after one or more calls of [pushHistory] the history holds
    the entries pushed, the newest first, followed by what was there,
    cut to ten; it never has more than ten entries, and from ten
    pushes on nothing older is left.  [pushHistory] returns what it
    stores, and a store that is missing, unparsable or not an array
    counts as empty. *)
Theorem history_newest_first_at_most_ten (e : A) (entries : list A)
    (st : History.stored A) :
  let st' := History.pushAll A (e :: entries) st in
  History.loadHistory A st'
  = firstn 10 (rev (e :: entries) ++ History.loadHistory A st)
  /\ (List.length (History.loadHistory A st') <= 10)%nat
  /\ hd_error (History.loadHistory A st') = Some (last entries e)
  /\ ((10 <= List.length (e :: entries))%nat ->
        History.loadHistory A st' = firstn 10 (rev (e :: entries)))
  /\ (forall x s,
        fst (History.pushHistory A x s)
        = History.loadHistory A (snd (History.pushHistory A x s)))
  /\ (forall x,
        fst (History.pushHistory A x (History.Missing A)) = [x]
        /\ fst (History.pushHistory A x (History.Unparsable A)) = [x]
        /\ fst (History.pushHistory A x (History.NotArray A)) = [x]).
Proof.
  cbv zeta. rewrite loadHistory_pushAll.
  split; [reflexivity|].
  split; [apply firstn_le_length|].
  split.
  { induction entries as [|x entries IH] using rev_ind.
    - reflexivity.
    - change (e :: entries ++ [x]) with ((e :: entries) ++ [x]).
      rewrite rev_app_distr. cbn [rev app firstn hd_error].
      rewrite last_last. reflexivity. }
  split.
  { intros L. rewrite firstn_app.
    replace (10 - List.length (rev (e :: entries)))%nat with 0%nat
      by (rewrite length_rev; lia).
    cbn [firstn]. apply app_nil_r. }
  split; [reflexivity|].
  intros x. repeat split; reflexivity.
Qed.

End HistoryFacts.

(** Twelve pushes onto a history of two: the last ten pushed are left,
    the newest first. *)
Lemma history_newest_first_at_most_ten_witness :
  let st := History.Entries nat [100; 101]%nat in
  let pushed := [1; 2; 3; 4; 5; 6; 7; 8; 9; 10; 11; 12]%nat in
  (10 <= List.length pushed)%nat
  /\ History.loadHistory nat (History.pushAll nat pushed st)
     = [12; 11; 10; 9; 8; 7; 6; 5; 4; 3]%nat.
Proof.
  cbv zeta. split; [cbn; lia|].
  destruct (history_newest_first_at_most_ten nat 1%nat
              [2; 3; 4; 5; 6; 7; 8; 9; 10; 11; 12]%nat
              (History.Entries nat [100; 101]%nat)) as (_ & _ & _ & H & _).
  cbv zeta in H. rewrite H; [reflexivity | cbn; lia].
Defined.

(** ** [clamp] *)

Lemma rank_of_number (x : float) :
  is_nan x = false -> exists r, rank (Prim2SF x) = Some r.
Proof.
  intros H. apply is_nan_false in H.
  destruct (Prim2SF x) as [[]|[]| |[] m e]; cbn; eauto. contradiction.
Qed.

Lemma leb_number (a b : float) :
  (a <=? b) = true -> is_nan a = false /\ is_nan b = false.
Proof.
  rewrite leb_spec, !is_nan_false. unfold SFleb.
  destruct (Prim2SF a), (Prim2SF b); cbn; try discriminate;
    split; discriminate.
Qed.

(** The comparisons of two numbers through their ranks. *)
Ltac with_ranks :=
  repeat match goal with
         | H : is_nan ?x = false |- _ =>
             let r := fresh "r" in
             let E := fresh "E" in
             destruct (rank_of_number x H) as ([[? ?] ?] & E);
             revert H
         end;
  intros;
  rewrite ?leb_spec, ?ltb_spec, ?eqb_spec in *;
  unfold SFleb, SFltb, SFeqb in *;
  rewrite ?SFcompare_rank in *;
  repeat match goal with
         | E : rank _ = Some _ |- _ => rewrite ?E in *; clear E
         end;
  unfold lex in *; order_cases.

Lemma leb_refl (x : float) : is_nan x = false -> (x <=? x) = true.
Proof. intros H. with_ranks. Qed.

Lemma ltb_leb (a b : float) : (a <? b) = true -> (a <=? b) = true.
Proof. to_ranks. intros H. order_cases. Qed.

Lemma leb_total (a b : float) :
  is_nan a = false -> is_nan b = false -> (a <? b) = false ->
  (b <=? a) = true.
Proof. intros Ha Hb H. with_ranks. Qed.

Lemma leb_trans (a b c : float) :
  (a <=? b) = true -> (b <=? c) = true -> (a <=? c) = true.
Proof. to_ranks. intros H1 H2. order_cases. Qed.

Lemma leb_antisym (a b : float) :
  (a <=? b) = true -> (b <=? a) = true -> (a =? b) = true.
Proof.
  rewrite !leb_spec, eqb_spec. unfold SFleb, SFeqb.
  rewrite !SFcompare_rank.
  destruct (rank (Prim2SF a)) as [[[? ?] ?]|],
    (rank (Prim2SF b)) as [[[? ?] ?]|]; try discriminate.
  unfold lex. intros H1 H2. order_cases.
Qed.

(** The smaller and the larger of two numbers are one of them and
    bound both. *)
Lemma Math_min_number (b n : float) :
  is_nan b = false -> is_nan n = false ->
  (Math_min b n = b \/ Math_min b n = n)
  /\ (Math_min b n <=? b) = true /\ (Math_min b n <=? n) = true.
Proof.
  intros Hb Hn. unfold Math_min. rewrite Hb, Hn. cbn [orb].
  destruct (b <? n) eqn:L1.
  - split; [left; reflexivity|]. split; [apply leb_refl, Hb | apply ltb_leb, L1].
  - destruct (n <? b) eqn:L2.
    + split; [right; reflexivity|].
      split; [apply ltb_leb, L2 | apply leb_refl, Hn].
    + pose proof (leb_total b n Hb Hn L1) as G1.
      pose proof (leb_total n b Hn Hb L2) as G2.
      destruct (get_sign b).
      * split; [left; reflexivity|]. split; [apply leb_refl, Hb | exact G2].
      * split; [right; reflexivity|]. split; [exact G1 | apply leb_refl, Hn].
Qed.

Lemma Math_max_number (a m : float) :
  is_nan a = false -> is_nan m = false ->
  (Math_max a m = a \/ Math_max a m = m)
  /\ (a <=? Math_max a m) = true /\ (m <=? Math_max a m) = true.
Proof.
  intros Ha Hm. unfold Math_max. rewrite Ha, Hm. cbn [orb].
  destruct (a <? m) eqn:L1.
  - split; [right; reflexivity|].
    split; [apply ltb_leb, L1 | apply leb_refl, Hm].
  - destruct (m <? a) eqn:L2.
    + split; [left; reflexivity|].
      split; [apply leb_refl, Ha | apply ltb_leb, L2].
    + pose proof (leb_total a m Ha Hm L1) as G1.
      pose proof (leb_total m a Hm Ha L2) as G2.
      destruct (get_sign a).
      * split; [right; reflexivity|]. split; [exact G2 | apply leb_refl, Hm].
      * split; [left; reflexivity|]. split; [apply leb_refl, Ha | exact G1].
Qed.

(** X11: for bounds [a <= b] and a number [n], [clamp(n, a, b)] lies
    between [a] and [b] and is one of [n], [a] and [b]; it equals [n]
    when [n] lies between the bounds, [a] when [n] is below and [b] when
    [n] is above. *)
Theorem clamp_bounds (n a b : float) :
  (a <=? b) = true -> is_nan n = false ->
  (a <=? clamp n a b) = true /\ (clamp n a b <=? b) = true
  /\ (clamp n a b = n \/ clamp n a b = a \/ clamp n a b = b)
  /\ ((a <=? n) = true -> (n <=? b) = true -> (clamp n a b =? n) = true)
  /\ ((n <=? a) = true -> (clamp n a b =? a) = true)
  /\ ((b <=? n) = true -> (clamp n a b =? b) = true).
Proof.
  intros Hab Hn. destruct (leb_number a b Hab) as (Ha & Hb).
  unfold clamp.
  destruct (Math_min_number b n Hb Hn) as (Cm & Mb & Mn).
  assert (Hm : is_nan (Math_min b n) = false)
    by (destruct Cm as [-> | ->]; assumption).
  destruct (Math_max_number a (Math_min b n) Ha Hm) as (Cr & Ra & Rm).
  set (m := Math_min b n) in *. set (r := Math_max a m) in *.
  assert (Rb : (r <=? b) = true)
    by (destruct Cr as [-> | ->]; assumption).
  split; [exact Ra|]. split; [exact Rb|].
  split.
  { destruct Cr as [-> | ->]; [tauto|].
    destruct Cm as [-> | ->]; tauto. }
  split; [|split].
  - intros Lan Lnb. apply leb_antisym.
    + destruct Cr as [-> | ->]; [exact Lan | exact Mn].
    + apply leb_trans with m; [|exact Rm].
      destruct Cm as [Em | Em]; rewrite Em;
        [exact Lnb | apply leb_refl, Hn].
  - intros Lna. apply leb_antisym; [|exact Ra].
    destruct Cr as [-> | ->]; [apply leb_refl, Ha|].
    apply leb_trans with n; assumption.
  - intros Lbn. apply leb_antisym; [exact Rb|].
    apply leb_trans with m; [|exact Rm].
    destruct Cm as [Em | Em]; rewrite Em; [apply leb_refl, Hb | exact Lbn].
Qed.

(** A total of 134 is cut to 100, a total of 49 is kept, and -3 would be
    raised to 0. *)
Lemma clamp_bounds_witness :
  (0 <=? 100) = true
  /\ clamp 134 0 100 = 100 /\ clamp 49 0 100 = 49 /\ clamp (-3) 0 100 = 0
  /\ (0 <=? clamp 134 0 100) = true /\ (clamp 134 0 100 <=? 100) = true.
Proof.
  split; [reflexivity|].
  split; [vm_compute; reflexivity|].
  split; [vm_compute; reflexivity|].
  split; [vm_compute; reflexivity|].
  destruct (clamp_bounds 134 0 100 eq_refl eq_refl) as (L & U & _).
  split; assumption.
Defined.

(** ** Blank input *)

Lemma dropSpace_blank (fwd : bool) (s : string) :
  allBlank s = true -> dropSpace fwd s = EmptyString.
Proof.
  induction s as [|c r IH]; cbn [allBlank dropSpace]; [reflexivity|].
  intros H. apply andb_true_iff in H. destruct H as (Hc & Hr).
  rewrite Hc. apply IH, Hr.
Qed.

Lemma safeNum_blank (s : string) : allBlank s = true -> safeNum (Text s) = None.
Proof.
  intros H. unfold safeNum, trim. rewrite (dropSpace_blank true s H).
  reflexivity.
Qed.

(** X12: a field that is [null], [undefined], empty or made of blanks
    only is unknown: [safeNum] gives null.  For an empty field or one
    made of blanks so do the oxygen fraction, the age, a ratio with such
    a saturation or oxygen input and a percent change with such an
    operand. *)
Theorem blank_is_unknown (s : string) (x : value) :
  allBlank s = true ->
  safeNum Null = None /\ safeNum Undefined = None
  /\ safeNum (Text s) = None
  /\ parseFiO2 (Text s) = None
  /\ (forall unit, toMonths (Text s) unit = None)
  /\ calcSF (Text s) x = None /\ calcSF x (Text s) = None
  /\ pctChange (Text s) x = None /\ pctChange x (Text s) = None.
Proof.
  intros H. pose proof (safeNum_blank s H) as E.
  unfold parseFiO2, toMonths, calcSF, pctChange, parseFiO2. rewrite E.
  repeat split; try reflexivity.
  - destruct (safeNum x); reflexivity.
  - destruct (safeNum x); reflexivity.
Qed.

(** A field of two spaces and a tab. *)
Lemma blank_is_unknown_witness :
  allBlank (String " " (String " " (String (ascii_of_nat 9) EmptyString)))
  = true
  /\ safeNum (Text (String " " (String " " (String (ascii_of_nat 9) EmptyString))))
     = None.
Proof.
  split; [reflexivity|].
  destruct (blank_is_unknown
              (String " " (String " " (String (ascii_of_nat 9) EmptyString)))
              Null eq_refl) as (_ & _ & H & _).
  exact H.
Defined.

(** ** The explanation *)

(** X13: the explanation is the sentence "Sem sinais fortes de alto
    risco com os dados fornecidos." exactly when none of the eight notes
    applies: no red flag, no operational criterion, SF at 1–2 h not
    below 193, RR down by 10% or more or unknown, age not below 6
    months, not the hypoxemic type, not ARDS, PRISM below 5 or
    unknown.  Pneumonia and the SF bands from 193 to 259 score points
    and leave that sentence in place. *)
Theorem explanation_default (d : snapshot) :
  let out := computeRisk d in
  explain out = "Sem sinais fortes de alto risco com os dados fornecidos."
  <-> (redFlags d = false /\ operationalCriteria d = false
       /\ below (sf1 out) 193 = false
       /\ above (drrPct out) (-10) = false
       /\ below (toMonths (ageValue d) (ageUnit d)) 6 = false
       /\ (arfType d =? "type1")%string = false
       /\ (diag d =? "ards")%string = false
       /\ atLeast (safeNum (prism d)) 5 = false).
Proof.
  cbv zeta. cbn [computeRisk explain sf1 drrPct]. unfold explanation.
  set (c1 := redFlags d). set (c2 := operationalCriteria d).
  set (c3 := below _ 193). set (c4 := above _ (-10)).
  set (c5 := below _ 6). set (c6 := (arfType d =? "type1")%string).
  set (c7 := (diag d =? "ards")%string). set (c8 := atLeast _ 5).
  set (n3 := "SF a 1–2 h < 193 (SF=" +++ _).
  assert (N3 : exists r, n3 = String "S" (String "F" r))
    by (eexists; reflexivity).
  clearbody c1 c2 c3 c4 c5 c6 c7 c8 n3.
  destruct N3 as (r3 & ->).
  destruct c1, c2, c3, c4, c5, c6, c7, c8; cbn [pushIf app];
    try (split; intros _; repeat split; reflexivity);
    (split; [|intros (? & ? & ? & ? & ? & ? & ? & ?); congruence]);
    match goal with
    | |- join _ (?x :: ?l) = _ -> _ =>
        destruct (join_first " " x l) as (rest & ->)
    end;
    intros E; cbn in E; discriminate E.
Qed.
